(** * A shallow embedding of the game core of [fruit_ninja.py]

    The module-level constants, the entity classes [Fruit], [SlicedFruit],
    [Bomb] and [Particle], and the methods of class [FruitNinja] that drive
    a session: spawning, the per-tick [update], slice detection and
    resolution, the pointer event handler, [reset_game] and the state
    mutations performed by [draw].

    Modelling conventions.
    - Python floats that only go through [+], [-], [*] and comparisons are
      exact rationals [Q]; Python ints are [Z].
    - The collision geometry ([point_line_distance], which calls
      [math.sqrt]) is computed over the real numbers [R].
    - The process-wide [random] module is an explicit stream of draws in
      [0,1) kept in the field [rnd] of the game record; [random.uniform],
      [random.randint] and [random.choice] consume draws from it.
    - Audio playback, printing, image drawing and file I/O have no effect
      on the modelled state and are omitted.
    - [self.x.remove(e)] inside the loops of the source removes objects by
      identity; since the removed objects are exactly those collected by a
      preceding scan of the same list, the removal is a [filter]. *)

From Stdlib Require Import ZArith QArith Qminmax Qround Qreals List String Bool Lia.
From Stdlib Require Import Reals Lra RelationClasses.
Import ListNotations.

Open Scope Z_scope.

(** ** Module constants *)

Definition SCREEN_WIDTH : Z := 800.
Definition SCREEN_HEIGHT : Z := 600.
Definition FPS : Z := 60.
Definition GRAVITY : Q := 35 # 100.
Definition TOP_BAR_HEIGHT : Z := 80.
Definition BOTTOM_BAR_HEIGHT : Z := 60.
Definition GAME_AREA_Y : Z := TOP_BAR_HEIGHT.
Definition GAME_AREA_HEIGHT : Z := SCREEN_HEIGHT - TOP_BAR_HEIGHT - BOTTOM_BAR_HEIGHT.
Definition MAX_LIVES : Z := 3.

Definition Color : Type := (Z * Z * Z)%type.
Definition RED : Color := (255, 0, 0).
Definition YELLOW : Color := (255, 255, 0).

(** Python comparisons on floats. *)
Definition Qltb (a b : Q) : bool := negb (Qle_bool b a).
Definition Qleb (a b : Q) : bool := Qle_bool a b.

(** ** Entities *)

(** [class Fruit]: [radius] is [max(w, h) // 2] of the whole image, 30
    without one; [fruit_has_cut] is the truth value of
    [fruit.sliced_image or fruit.half_images]. *)
Record Fruit := mkFruit {
  fruit_x : Q; fruit_y : Q; fruit_vx : Q; fruit_vy : Q;
  fruit_angle : Q; fruit_rotation_speed : Q;
  fruit_radius : Z;
  fruit_type : string;
  fruit_has_cut : bool;
  fruit_color : Color
}.

(** [Fruit.update] *)
Definition fruit_update (f : Fruit) : Fruit :=
  let x := (fruit_x f + fruit_vx f)%Q in
  let y := (fruit_y f + fruit_vy f)%Q in
  let vy := (fruit_vy f + GRAVITY)%Q in
  let angle := (fruit_angle f + fruit_rotation_speed f)%Q in
  let r := inject_Z (fruit_radius f) in
  let x' := Qmax r (Qmin (inject_Z SCREEN_WIDTH - r) x) in
  {| fruit_x := x'; fruit_y := y; fruit_vx := fruit_vx f; fruit_vy := vy;
     fruit_angle := angle; fruit_rotation_speed := fruit_rotation_speed f;
     fruit_radius := fruit_radius f; fruit_type := fruit_type f;
     fruit_has_cut := fruit_has_cut f; fruit_color := fruit_color f |}.

(** [Fruit.is_missed]: [self.y - self.radius > GAME_AREA_Y + GAME_AREA_HEIGHT] *)
Definition fruit_is_missed (f : Fruit) : bool :=
  Qltb (inject_Z (GAME_AREA_Y + GAME_AREA_HEIGHT)) (fruit_y f - inject_Z (fruit_radius f)).

(** [class Bomb] *)
Record Bomb := mkBomb {
  bomb_x : Q; bomb_y : Q; bomb_vx : Q; bomb_vy : Q;
  bomb_angle : Q; bomb_rotation_speed : Q;
  bomb_radius : Z;
  bomb_pulse_timer : Z
}.

(** [Bomb.update]: gravity scaled by 0.8. *)
Definition bomb_update (b : Bomb) : Bomb :=
  let x := (bomb_x b + bomb_vx b)%Q in
  let y := (bomb_y b + bomb_vy b)%Q in
  let vy := (bomb_vy b + GRAVITY * (8 # 10))%Q in
  let angle := (bomb_angle b + bomb_rotation_speed b)%Q in
  let r := inject_Z (bomb_radius b) in
  let x' := Qmax r (Qmin (inject_Z SCREEN_WIDTH - r) x) in
  {| bomb_x := x'; bomb_y := y; bomb_vx := bomb_vx b; bomb_vy := vy;
     bomb_angle := angle; bomb_rotation_speed := bomb_rotation_speed b;
     bomb_radius := bomb_radius b; bomb_pulse_timer := bomb_pulse_timer b + 1 |}.

(** [Bomb.is_off_screen]: [self.y - self.radius > GAME_AREA_Y + GAME_AREA_HEIGHT + 60] *)
Definition bomb_is_off_screen (b : Bomb) : bool :=
  Qltb (inject_Z (GAME_AREA_Y + GAME_AREA_HEIGHT + 60)) (bomb_y b - inject_Z (bomb_radius b)).

(** [class SlicedFruit]: two halves with their own kinematics and a shared
    [life] countdown. *)
Record SlicedFruit := mkSlicedFruit {
  sf_type : string;
  sf_life : Z;
  half1_x : Q; half1_y : Q; half2_x : Q; half2_y : Q;
  half1_vx : Q; half1_vy : Q; half2_vx : Q; half2_vy : Q;
  rotation1 : Q; rotation2 : Q; rotation_speed1 : Q; rotation_speed2 : Q
}.

(** [SlicedFruit.update] *)
Definition sliced_update (h : SlicedFruit) : SlicedFruit :=
  {| sf_type := sf_type h; sf_life := sf_life h - 1;
     half1_x := half1_x h + half1_vx h; half1_y := half1_y h + half1_vy h;
     half2_x := half2_x h + half2_vx h; half2_y := half2_y h + half2_vy h;
     half1_vx := half1_vx h; half1_vy := half1_vy h + (1 # 2);
     half2_vx := half2_vx h; half2_vy := half2_vy h + (1 # 2);
     rotation1 := rotation1 h + rotation_speed1 h;
     rotation2 := rotation2 h + rotation_speed2 h;
     rotation_speed1 := rotation_speed1 h; rotation_speed2 := rotation_speed2 h |}.

(** [SlicedFruit.is_alive] *)
Definition sliced_is_alive (h : SlicedFruit) : bool := 0 <? sf_life h.

(** [class Particle] *)
Record Particle := mkParticle {
  p_x : Q; p_y : Q; p_vx : Q; p_vy : Q;
  p_color : Color; p_size : Z; p_life : Z
}.

(** [Particle.update] *)
Definition particle_update (p : Particle) : Particle :=
  {| p_x := p_x p + p_vx p; p_y := p_y p + p_vy p;
     p_vx := p_vx p; p_vy := p_vy p + (3 # 10);
     p_color := p_color p; p_size := p_size p; p_life := p_life p - 1 |}.

(** [Particle.is_alive] *)
Definition particle_is_alive (p : Particle) : bool := 0 <? p_life p.

(** An entry of [self.fruit_images]: the radii ([max(w, h) // 2]) of the
    whole-image variants, and whether a sliced image or half images exist. *)
Record FruitAsset := mkFruitAsset {
  asset_whole_radii : list Z;
  asset_has_cut : bool
}.

(** ** The game object *)

Record FruitNinja := mkFruitNinja {
  running : bool;
  fruits : list Fruit;
  bombs : list Bomb;
  sliced_fruits : list SlicedFruit;
  particles : list Particle;
  score : Z;
  best_score : Z;
  lives : Z;
  game_over : bool;
  combo : Z;
  combo_timer : Z;
  combo_timeout : Z;
  show_title_screen : bool;
  swipe_path : list (Q * Q);
  swiping : bool;
  title_sliced : bool;
  bomb_flash_active : bool;
  bomb_flash_timer : Z;
  bomb_flash_duration : Q;
  bomb_flash_center : option (Q * Q);
  life_loss_duration : Z;
  life_loss_timer : Z;
  life_loss_index : option Z;
  spawn_timer : Z;
  spawn_interval : Q;
  bomb_spawn_timer : Z;
  bomb_spawn_interval : Q;
  fruit_velocity_min : Q;
  fruit_velocity_max : Q;
  fruit_horizontal_velocity : Q;
  bomb_velocity_min : Q;
  bomb_velocity_max : Q;
  spawn_acceleration : Q;
  bomb_spawn_acceleration : Q;
  game_mode : string;
  fruit_images : list (string * FruitAsset);
  game_over_frames : Z;
  rnd : list Q
}.

Definition set_running (v : bool) (s : FruitNinja) : FruitNinja :=
  {| running := v; fruits := fruits s; bombs := bombs s; sliced_fruits := sliced_fruits s;
     particles := particles s; score := score s; best_score := best_score s; lives := lives s;
     game_over := game_over s; combo := combo s; combo_timer := combo_timer s;
     combo_timeout := combo_timeout s; show_title_screen := show_title_screen s;
     swipe_path := swipe_path s; swiping := swiping s; title_sliced := title_sliced s;
     bomb_flash_active := bomb_flash_active s; bomb_flash_timer := bomb_flash_timer s;
     bomb_flash_duration := bomb_flash_duration s; bomb_flash_center := bomb_flash_center s;
     life_loss_duration := life_loss_duration s; life_loss_timer := life_loss_timer s;
     life_loss_index := life_loss_index s; spawn_timer := spawn_timer s;
     spawn_interval := spawn_interval s; bomb_spawn_timer := bomb_spawn_timer s;
     bomb_spawn_interval := bomb_spawn_interval s; fruit_velocity_min := fruit_velocity_min s;
     fruit_velocity_max := fruit_velocity_max s;
     fruit_horizontal_velocity := fruit_horizontal_velocity s;
     bomb_velocity_min := bomb_velocity_min s; bomb_velocity_max := bomb_velocity_max s;
     spawn_acceleration := spawn_acceleration s;
     bomb_spawn_acceleration := bomb_spawn_acceleration s; game_mode := game_mode s;
     fruit_images := fruit_images s; game_over_frames := game_over_frames s; rnd := rnd s |}.

Definition set_fruits (v : list Fruit) (s : FruitNinja) : FruitNinja :=
  {| running := running s; fruits := v; bombs := bombs s; sliced_fruits := sliced_fruits s;
     particles := particles s; score := score s; best_score := best_score s; lives := lives s;
     game_over := game_over s; combo := combo s; combo_timer := combo_timer s;
     combo_timeout := combo_timeout s; show_title_screen := show_title_screen s;
     swipe_path := swipe_path s; swiping := swiping s; title_sliced := title_sliced s;
     bomb_flash_active := bomb_flash_active s; bomb_flash_timer := bomb_flash_timer s;
     bomb_flash_duration := bomb_flash_duration s; bomb_flash_center := bomb_flash_center s;
     life_loss_duration := life_loss_duration s; life_loss_timer := life_loss_timer s;
     life_loss_index := life_loss_index s; spawn_timer := spawn_timer s;
     spawn_interval := spawn_interval s; bomb_spawn_timer := bomb_spawn_timer s;
     bomb_spawn_interval := bomb_spawn_interval s; fruit_velocity_min := fruit_velocity_min s;
     fruit_velocity_max := fruit_velocity_max s;
     fruit_horizontal_velocity := fruit_horizontal_velocity s;
     bomb_velocity_min := bomb_velocity_min s; bomb_velocity_max := bomb_velocity_max s;
     spawn_acceleration := spawn_acceleration s;
     bomb_spawn_acceleration := bomb_spawn_acceleration s; game_mode := game_mode s;
     fruit_images := fruit_images s; game_over_frames := game_over_frames s; rnd := rnd s |}.

Definition set_bombs (v : list Bomb) (s : FruitNinja) : FruitNinja :=
  {| running := running s; fruits := fruits s; bombs := v; sliced_fruits := sliced_fruits s;
     particles := particles s; score := score s; best_score := best_score s; lives := lives s;
     game_over := game_over s; combo := combo s; combo_timer := combo_timer s;
     combo_timeout := combo_timeout s; show_title_screen := show_title_screen s;
     swipe_path := swipe_path s; swiping := swiping s; title_sliced := title_sliced s;
     bomb_flash_active := bomb_flash_active s; bomb_flash_timer := bomb_flash_timer s;
     bomb_flash_duration := bomb_flash_duration s; bomb_flash_center := bomb_flash_center s;
     life_loss_duration := life_loss_duration s; life_loss_timer := life_loss_timer s;
     life_loss_index := life_loss_index s; spawn_timer := spawn_timer s;
     spawn_interval := spawn_interval s; bomb_spawn_timer := bomb_spawn_timer s;
     bomb_spawn_interval := bomb_spawn_interval s; fruit_velocity_min := fruit_velocity_min s;
     fruit_velocity_max := fruit_velocity_max s;
     fruit_horizontal_velocity := fruit_horizontal_velocity s;
     bomb_velocity_min := bomb_velocity_min s; bomb_velocity_max := bomb_velocity_max s;
     spawn_acceleration := spawn_acceleration s;
     bomb_spawn_acceleration := bomb_spawn_acceleration s; game_mode := game_mode s;
     fruit_images := fruit_images s; game_over_frames := game_over_frames s; rnd := rnd s |}.

Definition set_sliced_fruits (v : list SlicedFruit) (s : FruitNinja) : FruitNinja :=
  {| running := running s; fruits := fruits s; bombs := bombs s; sliced_fruits := v;
     particles := particles s; score := score s; best_score := best_score s; lives := lives s;
     game_over := game_over s; combo := combo s; combo_timer := combo_timer s;
     combo_timeout := combo_timeout s; show_title_screen := show_title_screen s;
     swipe_path := swipe_path s; swiping := swiping s; title_sliced := title_sliced s;
     bomb_flash_active := bomb_flash_active s; bomb_flash_timer := bomb_flash_timer s;
     bomb_flash_duration := bomb_flash_duration s; bomb_flash_center := bomb_flash_center s;
     life_loss_duration := life_loss_duration s; life_loss_timer := life_loss_timer s;
     life_loss_index := life_loss_index s; spawn_timer := spawn_timer s;
     spawn_interval := spawn_interval s; bomb_spawn_timer := bomb_spawn_timer s;
     bomb_spawn_interval := bomb_spawn_interval s; fruit_velocity_min := fruit_velocity_min s;
     fruit_velocity_max := fruit_velocity_max s;
     fruit_horizontal_velocity := fruit_horizontal_velocity s;
     bomb_velocity_min := bomb_velocity_min s; bomb_velocity_max := bomb_velocity_max s;
     spawn_acceleration := spawn_acceleration s;
     bomb_spawn_acceleration := bomb_spawn_acceleration s; game_mode := game_mode s;
     fruit_images := fruit_images s; game_over_frames := game_over_frames s; rnd := rnd s |}.

Definition set_particles (v : list Particle) (s : FruitNinja) : FruitNinja :=
  {| running := running s; fruits := fruits s; bombs := bombs s;
     sliced_fruits := sliced_fruits s; particles := v; score := score s;
     best_score := best_score s; lives := lives s; game_over := game_over s; combo := combo s;
     combo_timer := combo_timer s; combo_timeout := combo_timeout s;
     show_title_screen := show_title_screen s; swipe_path := swipe_path s;
     swiping := swiping s; title_sliced := title_sliced s;
     bomb_flash_active := bomb_flash_active s; bomb_flash_timer := bomb_flash_timer s;
     bomb_flash_duration := bomb_flash_duration s; bomb_flash_center := bomb_flash_center s;
     life_loss_duration := life_loss_duration s; life_loss_timer := life_loss_timer s;
     life_loss_index := life_loss_index s; spawn_timer := spawn_timer s;
     spawn_interval := spawn_interval s; bomb_spawn_timer := bomb_spawn_timer s;
     bomb_spawn_interval := bomb_spawn_interval s; fruit_velocity_min := fruit_velocity_min s;
     fruit_velocity_max := fruit_velocity_max s;
     fruit_horizontal_velocity := fruit_horizontal_velocity s;
     bomb_velocity_min := bomb_velocity_min s; bomb_velocity_max := bomb_velocity_max s;
     spawn_acceleration := spawn_acceleration s;
     bomb_spawn_acceleration := bomb_spawn_acceleration s; game_mode := game_mode s;
     fruit_images := fruit_images s; game_over_frames := game_over_frames s; rnd := rnd s |}.

Definition set_score (v : Z) (s : FruitNinja) : FruitNinja :=
  {| running := running s; fruits := fruits s; bombs := bombs s;
     sliced_fruits := sliced_fruits s; particles := particles s; score := v;
     best_score := best_score s; lives := lives s; game_over := game_over s; combo := combo s;
     combo_timer := combo_timer s; combo_timeout := combo_timeout s;
     show_title_screen := show_title_screen s; swipe_path := swipe_path s;
     swiping := swiping s; title_sliced := title_sliced s;
     bomb_flash_active := bomb_flash_active s; bomb_flash_timer := bomb_flash_timer s;
     bomb_flash_duration := bomb_flash_duration s; bomb_flash_center := bomb_flash_center s;
     life_loss_duration := life_loss_duration s; life_loss_timer := life_loss_timer s;
     life_loss_index := life_loss_index s; spawn_timer := spawn_timer s;
     spawn_interval := spawn_interval s; bomb_spawn_timer := bomb_spawn_timer s;
     bomb_spawn_interval := bomb_spawn_interval s; fruit_velocity_min := fruit_velocity_min s;
     fruit_velocity_max := fruit_velocity_max s;
     fruit_horizontal_velocity := fruit_horizontal_velocity s;
     bomb_velocity_min := bomb_velocity_min s; bomb_velocity_max := bomb_velocity_max s;
     spawn_acceleration := spawn_acceleration s;
     bomb_spawn_acceleration := bomb_spawn_acceleration s; game_mode := game_mode s;
     fruit_images := fruit_images s; game_over_frames := game_over_frames s; rnd := rnd s |}.

Definition set_best_score (v : Z) (s : FruitNinja) : FruitNinja :=
  {| running := running s; fruits := fruits s; bombs := bombs s;
     sliced_fruits := sliced_fruits s; particles := particles s; score := score s;
     best_score := v; lives := lives s; game_over := game_over s; combo := combo s;
     combo_timer := combo_timer s; combo_timeout := combo_timeout s;
     show_title_screen := show_title_screen s; swipe_path := swipe_path s;
     swiping := swiping s; title_sliced := title_sliced s;
     bomb_flash_active := bomb_flash_active s; bomb_flash_timer := bomb_flash_timer s;
     bomb_flash_duration := bomb_flash_duration s; bomb_flash_center := bomb_flash_center s;
     life_loss_duration := life_loss_duration s; life_loss_timer := life_loss_timer s;
     life_loss_index := life_loss_index s; spawn_timer := spawn_timer s;
     spawn_interval := spawn_interval s; bomb_spawn_timer := bomb_spawn_timer s;
     bomb_spawn_interval := bomb_spawn_interval s; fruit_velocity_min := fruit_velocity_min s;
     fruit_velocity_max := fruit_velocity_max s;
     fruit_horizontal_velocity := fruit_horizontal_velocity s;
     bomb_velocity_min := bomb_velocity_min s; bomb_velocity_max := bomb_velocity_max s;
     spawn_acceleration := spawn_acceleration s;
     bomb_spawn_acceleration := bomb_spawn_acceleration s; game_mode := game_mode s;
     fruit_images := fruit_images s; game_over_frames := game_over_frames s; rnd := rnd s |}.

Definition set_lives (v : Z) (s : FruitNinja) : FruitNinja :=
  {| running := running s; fruits := fruits s; bombs := bombs s;
     sliced_fruits := sliced_fruits s; particles := particles s; score := score s;
     best_score := best_score s; lives := v; game_over := game_over s; combo := combo s;
     combo_timer := combo_timer s; combo_timeout := combo_timeout s;
     show_title_screen := show_title_screen s; swipe_path := swipe_path s;
     swiping := swiping s; title_sliced := title_sliced s;
     bomb_flash_active := bomb_flash_active s; bomb_flash_timer := bomb_flash_timer s;
     bomb_flash_duration := bomb_flash_duration s; bomb_flash_center := bomb_flash_center s;
     life_loss_duration := life_loss_duration s; life_loss_timer := life_loss_timer s;
     life_loss_index := life_loss_index s; spawn_timer := spawn_timer s;
     spawn_interval := spawn_interval s; bomb_spawn_timer := bomb_spawn_timer s;
     bomb_spawn_interval := bomb_spawn_interval s; fruit_velocity_min := fruit_velocity_min s;
     fruit_velocity_max := fruit_velocity_max s;
     fruit_horizontal_velocity := fruit_horizontal_velocity s;
     bomb_velocity_min := bomb_velocity_min s; bomb_velocity_max := bomb_velocity_max s;
     spawn_acceleration := spawn_acceleration s;
     bomb_spawn_acceleration := bomb_spawn_acceleration s; game_mode := game_mode s;
     fruit_images := fruit_images s; game_over_frames := game_over_frames s; rnd := rnd s |}.

Definition set_game_over (v : bool) (s : FruitNinja) : FruitNinja :=
  {| running := running s; fruits := fruits s; bombs := bombs s;
     sliced_fruits := sliced_fruits s; particles := particles s; score := score s;
     best_score := best_score s; lives := lives s; game_over := v; combo := combo s;
     combo_timer := combo_timer s; combo_timeout := combo_timeout s;
     show_title_screen := show_title_screen s; swipe_path := swipe_path s;
     swiping := swiping s; title_sliced := title_sliced s;
     bomb_flash_active := bomb_flash_active s; bomb_flash_timer := bomb_flash_timer s;
     bomb_flash_duration := bomb_flash_duration s; bomb_flash_center := bomb_flash_center s;
     life_loss_duration := life_loss_duration s; life_loss_timer := life_loss_timer s;
     life_loss_index := life_loss_index s; spawn_timer := spawn_timer s;
     spawn_interval := spawn_interval s; bomb_spawn_timer := bomb_spawn_timer s;
     bomb_spawn_interval := bomb_spawn_interval s; fruit_velocity_min := fruit_velocity_min s;
     fruit_velocity_max := fruit_velocity_max s;
     fruit_horizontal_velocity := fruit_horizontal_velocity s;
     bomb_velocity_min := bomb_velocity_min s; bomb_velocity_max := bomb_velocity_max s;
     spawn_acceleration := spawn_acceleration s;
     bomb_spawn_acceleration := bomb_spawn_acceleration s; game_mode := game_mode s;
     fruit_images := fruit_images s; game_over_frames := game_over_frames s; rnd := rnd s |}.

Definition set_combo (v : Z) (s : FruitNinja) : FruitNinja :=
  {| running := running s; fruits := fruits s; bombs := bombs s;
     sliced_fruits := sliced_fruits s; particles := particles s; score := score s;
     best_score := best_score s; lives := lives s; game_over := game_over s; combo := v;
     combo_timer := combo_timer s; combo_timeout := combo_timeout s;
     show_title_screen := show_title_screen s; swipe_path := swipe_path s;
     swiping := swiping s; title_sliced := title_sliced s;
     bomb_flash_active := bomb_flash_active s; bomb_flash_timer := bomb_flash_timer s;
     bomb_flash_duration := bomb_flash_duration s; bomb_flash_center := bomb_flash_center s;
     life_loss_duration := life_loss_duration s; life_loss_timer := life_loss_timer s;
     life_loss_index := life_loss_index s; spawn_timer := spawn_timer s;
     spawn_interval := spawn_interval s; bomb_spawn_timer := bomb_spawn_timer s;
     bomb_spawn_interval := bomb_spawn_interval s; fruit_velocity_min := fruit_velocity_min s;
     fruit_velocity_max := fruit_velocity_max s;
     fruit_horizontal_velocity := fruit_horizontal_velocity s;
     bomb_velocity_min := bomb_velocity_min s; bomb_velocity_max := bomb_velocity_max s;
     spawn_acceleration := spawn_acceleration s;
     bomb_spawn_acceleration := bomb_spawn_acceleration s; game_mode := game_mode s;
     fruit_images := fruit_images s; game_over_frames := game_over_frames s; rnd := rnd s |}.

Definition set_combo_timer (v : Z) (s : FruitNinja) : FruitNinja :=
  {| running := running s; fruits := fruits s; bombs := bombs s;
     sliced_fruits := sliced_fruits s; particles := particles s; score := score s;
     best_score := best_score s; lives := lives s; game_over := game_over s; combo := combo s;
     combo_timer := v; combo_timeout := combo_timeout s;
     show_title_screen := show_title_screen s; swipe_path := swipe_path s;
     swiping := swiping s; title_sliced := title_sliced s;
     bomb_flash_active := bomb_flash_active s; bomb_flash_timer := bomb_flash_timer s;
     bomb_flash_duration := bomb_flash_duration s; bomb_flash_center := bomb_flash_center s;
     life_loss_duration := life_loss_duration s; life_loss_timer := life_loss_timer s;
     life_loss_index := life_loss_index s; spawn_timer := spawn_timer s;
     spawn_interval := spawn_interval s; bomb_spawn_timer := bomb_spawn_timer s;
     bomb_spawn_interval := bomb_spawn_interval s; fruit_velocity_min := fruit_velocity_min s;
     fruit_velocity_max := fruit_velocity_max s;
     fruit_horizontal_velocity := fruit_horizontal_velocity s;
     bomb_velocity_min := bomb_velocity_min s; bomb_velocity_max := bomb_velocity_max s;
     spawn_acceleration := spawn_acceleration s;
     bomb_spawn_acceleration := bomb_spawn_acceleration s; game_mode := game_mode s;
     fruit_images := fruit_images s; game_over_frames := game_over_frames s; rnd := rnd s |}.

Definition set_combo_timeout (v : Z) (s : FruitNinja) : FruitNinja :=
  {| running := running s; fruits := fruits s; bombs := bombs s;
     sliced_fruits := sliced_fruits s; particles := particles s; score := score s;
     best_score := best_score s; lives := lives s; game_over := game_over s; combo := combo s;
     combo_timer := combo_timer s; combo_timeout := v;
     show_title_screen := show_title_screen s; swipe_path := swipe_path s;
     swiping := swiping s; title_sliced := title_sliced s;
     bomb_flash_active := bomb_flash_active s; bomb_flash_timer := bomb_flash_timer s;
     bomb_flash_duration := bomb_flash_duration s; bomb_flash_center := bomb_flash_center s;
     life_loss_duration := life_loss_duration s; life_loss_timer := life_loss_timer s;
     life_loss_index := life_loss_index s; spawn_timer := spawn_timer s;
     spawn_interval := spawn_interval s; bomb_spawn_timer := bomb_spawn_timer s;
     bomb_spawn_interval := bomb_spawn_interval s; fruit_velocity_min := fruit_velocity_min s;
     fruit_velocity_max := fruit_velocity_max s;
     fruit_horizontal_velocity := fruit_horizontal_velocity s;
     bomb_velocity_min := bomb_velocity_min s; bomb_velocity_max := bomb_velocity_max s;
     spawn_acceleration := spawn_acceleration s;
     bomb_spawn_acceleration := bomb_spawn_acceleration s; game_mode := game_mode s;
     fruit_images := fruit_images s; game_over_frames := game_over_frames s; rnd := rnd s |}.

Definition set_show_title_screen (v : bool) (s : FruitNinja) : FruitNinja :=
  {| running := running s; fruits := fruits s; bombs := bombs s;
     sliced_fruits := sliced_fruits s; particles := particles s; score := score s;
     best_score := best_score s; lives := lives s; game_over := game_over s; combo := combo s;
     combo_timer := combo_timer s; combo_timeout := combo_timeout s; show_title_screen := v;
     swipe_path := swipe_path s; swiping := swiping s; title_sliced := title_sliced s;
     bomb_flash_active := bomb_flash_active s; bomb_flash_timer := bomb_flash_timer s;
     bomb_flash_duration := bomb_flash_duration s; bomb_flash_center := bomb_flash_center s;
     life_loss_duration := life_loss_duration s; life_loss_timer := life_loss_timer s;
     life_loss_index := life_loss_index s; spawn_timer := spawn_timer s;
     spawn_interval := spawn_interval s; bomb_spawn_timer := bomb_spawn_timer s;
     bomb_spawn_interval := bomb_spawn_interval s; fruit_velocity_min := fruit_velocity_min s;
     fruit_velocity_max := fruit_velocity_max s;
     fruit_horizontal_velocity := fruit_horizontal_velocity s;
     bomb_velocity_min := bomb_velocity_min s; bomb_velocity_max := bomb_velocity_max s;
     spawn_acceleration := spawn_acceleration s;
     bomb_spawn_acceleration := bomb_spawn_acceleration s; game_mode := game_mode s;
     fruit_images := fruit_images s; game_over_frames := game_over_frames s; rnd := rnd s |}.

Definition set_swipe_path (v : list (Q * Q)) (s : FruitNinja) : FruitNinja :=
  {| running := running s; fruits := fruits s; bombs := bombs s;
     sliced_fruits := sliced_fruits s; particles := particles s; score := score s;
     best_score := best_score s; lives := lives s; game_over := game_over s; combo := combo s;
     combo_timer := combo_timer s; combo_timeout := combo_timeout s;
     show_title_screen := show_title_screen s; swipe_path := v; swiping := swiping s;
     title_sliced := title_sliced s; bomb_flash_active := bomb_flash_active s;
     bomb_flash_timer := bomb_flash_timer s; bomb_flash_duration := bomb_flash_duration s;
     bomb_flash_center := bomb_flash_center s; life_loss_duration := life_loss_duration s;
     life_loss_timer := life_loss_timer s; life_loss_index := life_loss_index s;
     spawn_timer := spawn_timer s; spawn_interval := spawn_interval s;
     bomb_spawn_timer := bomb_spawn_timer s; bomb_spawn_interval := bomb_spawn_interval s;
     fruit_velocity_min := fruit_velocity_min s; fruit_velocity_max := fruit_velocity_max s;
     fruit_horizontal_velocity := fruit_horizontal_velocity s;
     bomb_velocity_min := bomb_velocity_min s; bomb_velocity_max := bomb_velocity_max s;
     spawn_acceleration := spawn_acceleration s;
     bomb_spawn_acceleration := bomb_spawn_acceleration s; game_mode := game_mode s;
     fruit_images := fruit_images s; game_over_frames := game_over_frames s; rnd := rnd s |}.

Definition set_swiping (v : bool) (s : FruitNinja) : FruitNinja :=
  {| running := running s; fruits := fruits s; bombs := bombs s;
     sliced_fruits := sliced_fruits s; particles := particles s; score := score s;
     best_score := best_score s; lives := lives s; game_over := game_over s; combo := combo s;
     combo_timer := combo_timer s; combo_timeout := combo_timeout s;
     show_title_screen := show_title_screen s; swipe_path := swipe_path s; swiping := v;
     title_sliced := title_sliced s; bomb_flash_active := bomb_flash_active s;
     bomb_flash_timer := bomb_flash_timer s; bomb_flash_duration := bomb_flash_duration s;
     bomb_flash_center := bomb_flash_center s; life_loss_duration := life_loss_duration s;
     life_loss_timer := life_loss_timer s; life_loss_index := life_loss_index s;
     spawn_timer := spawn_timer s; spawn_interval := spawn_interval s;
     bomb_spawn_timer := bomb_spawn_timer s; bomb_spawn_interval := bomb_spawn_interval s;
     fruit_velocity_min := fruit_velocity_min s; fruit_velocity_max := fruit_velocity_max s;
     fruit_horizontal_velocity := fruit_horizontal_velocity s;
     bomb_velocity_min := bomb_velocity_min s; bomb_velocity_max := bomb_velocity_max s;
     spawn_acceleration := spawn_acceleration s;
     bomb_spawn_acceleration := bomb_spawn_acceleration s; game_mode := game_mode s;
     fruit_images := fruit_images s; game_over_frames := game_over_frames s; rnd := rnd s |}.

Definition set_title_sliced (v : bool) (s : FruitNinja) : FruitNinja :=
  {| running := running s; fruits := fruits s; bombs := bombs s;
     sliced_fruits := sliced_fruits s; particles := particles s; score := score s;
     best_score := best_score s; lives := lives s; game_over := game_over s; combo := combo s;
     combo_timer := combo_timer s; combo_timeout := combo_timeout s;
     show_title_screen := show_title_screen s; swipe_path := swipe_path s;
     swiping := swiping s; title_sliced := v; bomb_flash_active := bomb_flash_active s;
     bomb_flash_timer := bomb_flash_timer s; bomb_flash_duration := bomb_flash_duration s;
     bomb_flash_center := bomb_flash_center s; life_loss_duration := life_loss_duration s;
     life_loss_timer := life_loss_timer s; life_loss_index := life_loss_index s;
     spawn_timer := spawn_timer s; spawn_interval := spawn_interval s;
     bomb_spawn_timer := bomb_spawn_timer s; bomb_spawn_interval := bomb_spawn_interval s;
     fruit_velocity_min := fruit_velocity_min s; fruit_velocity_max := fruit_velocity_max s;
     fruit_horizontal_velocity := fruit_horizontal_velocity s;
     bomb_velocity_min := bomb_velocity_min s; bomb_velocity_max := bomb_velocity_max s;
     spawn_acceleration := spawn_acceleration s;
     bomb_spawn_acceleration := bomb_spawn_acceleration s; game_mode := game_mode s;
     fruit_images := fruit_images s; game_over_frames := game_over_frames s; rnd := rnd s |}.

Definition set_bomb_flash_active (v : bool) (s : FruitNinja) : FruitNinja :=
  {| running := running s; fruits := fruits s; bombs := bombs s;
     sliced_fruits := sliced_fruits s; particles := particles s; score := score s;
     best_score := best_score s; lives := lives s; game_over := game_over s; combo := combo s;
     combo_timer := combo_timer s; combo_timeout := combo_timeout s;
     show_title_screen := show_title_screen s; swipe_path := swipe_path s;
     swiping := swiping s; title_sliced := title_sliced s; bomb_flash_active := v;
     bomb_flash_timer := bomb_flash_timer s; bomb_flash_duration := bomb_flash_duration s;
     bomb_flash_center := bomb_flash_center s; life_loss_duration := life_loss_duration s;
     life_loss_timer := life_loss_timer s; life_loss_index := life_loss_index s;
     spawn_timer := spawn_timer s; spawn_interval := spawn_interval s;
     bomb_spawn_timer := bomb_spawn_timer s; bomb_spawn_interval := bomb_spawn_interval s;
     fruit_velocity_min := fruit_velocity_min s; fruit_velocity_max := fruit_velocity_max s;
     fruit_horizontal_velocity := fruit_horizontal_velocity s;
     bomb_velocity_min := bomb_velocity_min s; bomb_velocity_max := bomb_velocity_max s;
     spawn_acceleration := spawn_acceleration s;
     bomb_spawn_acceleration := bomb_spawn_acceleration s; game_mode := game_mode s;
     fruit_images := fruit_images s; game_over_frames := game_over_frames s; rnd := rnd s |}.

Definition set_bomb_flash_timer (v : Z) (s : FruitNinja) : FruitNinja :=
  {| running := running s; fruits := fruits s; bombs := bombs s;
     sliced_fruits := sliced_fruits s; particles := particles s; score := score s;
     best_score := best_score s; lives := lives s; game_over := game_over s; combo := combo s;
     combo_timer := combo_timer s; combo_timeout := combo_timeout s;
     show_title_screen := show_title_screen s; swipe_path := swipe_path s;
     swiping := swiping s; title_sliced := title_sliced s;
     bomb_flash_active := bomb_flash_active s; bomb_flash_timer := v;
     bomb_flash_duration := bomb_flash_duration s; bomb_flash_center := bomb_flash_center s;
     life_loss_duration := life_loss_duration s; life_loss_timer := life_loss_timer s;
     life_loss_index := life_loss_index s; spawn_timer := spawn_timer s;
     spawn_interval := spawn_interval s; bomb_spawn_timer := bomb_spawn_timer s;
     bomb_spawn_interval := bomb_spawn_interval s; fruit_velocity_min := fruit_velocity_min s;
     fruit_velocity_max := fruit_velocity_max s;
     fruit_horizontal_velocity := fruit_horizontal_velocity s;
     bomb_velocity_min := bomb_velocity_min s; bomb_velocity_max := bomb_velocity_max s;
     spawn_acceleration := spawn_acceleration s;
     bomb_spawn_acceleration := bomb_spawn_acceleration s; game_mode := game_mode s;
     fruit_images := fruit_images s; game_over_frames := game_over_frames s; rnd := rnd s |}.

Definition set_bomb_flash_duration (v : Q) (s : FruitNinja) : FruitNinja :=
  {| running := running s; fruits := fruits s; bombs := bombs s;
     sliced_fruits := sliced_fruits s; particles := particles s; score := score s;
     best_score := best_score s; lives := lives s; game_over := game_over s; combo := combo s;
     combo_timer := combo_timer s; combo_timeout := combo_timeout s;
     show_title_screen := show_title_screen s; swipe_path := swipe_path s;
     swiping := swiping s; title_sliced := title_sliced s;
     bomb_flash_active := bomb_flash_active s; bomb_flash_timer := bomb_flash_timer s;
     bomb_flash_duration := v; bomb_flash_center := bomb_flash_center s;
     life_loss_duration := life_loss_duration s; life_loss_timer := life_loss_timer s;
     life_loss_index := life_loss_index s; spawn_timer := spawn_timer s;
     spawn_interval := spawn_interval s; bomb_spawn_timer := bomb_spawn_timer s;
     bomb_spawn_interval := bomb_spawn_interval s; fruit_velocity_min := fruit_velocity_min s;
     fruit_velocity_max := fruit_velocity_max s;
     fruit_horizontal_velocity := fruit_horizontal_velocity s;
     bomb_velocity_min := bomb_velocity_min s; bomb_velocity_max := bomb_velocity_max s;
     spawn_acceleration := spawn_acceleration s;
     bomb_spawn_acceleration := bomb_spawn_acceleration s; game_mode := game_mode s;
     fruit_images := fruit_images s; game_over_frames := game_over_frames s; rnd := rnd s |}.

Definition set_bomb_flash_center (v : option (Q * Q)) (s : FruitNinja) : FruitNinja :=
  {| running := running s; fruits := fruits s; bombs := bombs s;
     sliced_fruits := sliced_fruits s; particles := particles s; score := score s;
     best_score := best_score s; lives := lives s; game_over := game_over s; combo := combo s;
     combo_timer := combo_timer s; combo_timeout := combo_timeout s;
     show_title_screen := show_title_screen s; swipe_path := swipe_path s;
     swiping := swiping s; title_sliced := title_sliced s;
     bomb_flash_active := bomb_flash_active s; bomb_flash_timer := bomb_flash_timer s;
     bomb_flash_duration := bomb_flash_duration s; bomb_flash_center := v;
     life_loss_duration := life_loss_duration s; life_loss_timer := life_loss_timer s;
     life_loss_index := life_loss_index s; spawn_timer := spawn_timer s;
     spawn_interval := spawn_interval s; bomb_spawn_timer := bomb_spawn_timer s;
     bomb_spawn_interval := bomb_spawn_interval s; fruit_velocity_min := fruit_velocity_min s;
     fruit_velocity_max := fruit_velocity_max s;
     fruit_horizontal_velocity := fruit_horizontal_velocity s;
     bomb_velocity_min := bomb_velocity_min s; bomb_velocity_max := bomb_velocity_max s;
     spawn_acceleration := spawn_acceleration s;
     bomb_spawn_acceleration := bomb_spawn_acceleration s; game_mode := game_mode s;
     fruit_images := fruit_images s; game_over_frames := game_over_frames s; rnd := rnd s |}.

Definition set_life_loss_duration (v : Z) (s : FruitNinja) : FruitNinja :=
  {| running := running s; fruits := fruits s; bombs := bombs s;
     sliced_fruits := sliced_fruits s; particles := particles s; score := score s;
     best_score := best_score s; lives := lives s; game_over := game_over s; combo := combo s;
     combo_timer := combo_timer s; combo_timeout := combo_timeout s;
     show_title_screen := show_title_screen s; swipe_path := swipe_path s;
     swiping := swiping s; title_sliced := title_sliced s;
     bomb_flash_active := bomb_flash_active s; bomb_flash_timer := bomb_flash_timer s;
     bomb_flash_duration := bomb_flash_duration s; bomb_flash_center := bomb_flash_center s;
     life_loss_duration := v; life_loss_timer := life_loss_timer s;
     life_loss_index := life_loss_index s; spawn_timer := spawn_timer s;
     spawn_interval := spawn_interval s; bomb_spawn_timer := bomb_spawn_timer s;
     bomb_spawn_interval := bomb_spawn_interval s; fruit_velocity_min := fruit_velocity_min s;
     fruit_velocity_max := fruit_velocity_max s;
     fruit_horizontal_velocity := fruit_horizontal_velocity s;
     bomb_velocity_min := bomb_velocity_min s; bomb_velocity_max := bomb_velocity_max s;
     spawn_acceleration := spawn_acceleration s;
     bomb_spawn_acceleration := bomb_spawn_acceleration s; game_mode := game_mode s;
     fruit_images := fruit_images s; game_over_frames := game_over_frames s; rnd := rnd s |}.

Definition set_life_loss_timer (v : Z) (s : FruitNinja) : FruitNinja :=
  {| running := running s; fruits := fruits s; bombs := bombs s;
     sliced_fruits := sliced_fruits s; particles := particles s; score := score s;
     best_score := best_score s; lives := lives s; game_over := game_over s; combo := combo s;
     combo_timer := combo_timer s; combo_timeout := combo_timeout s;
     show_title_screen := show_title_screen s; swipe_path := swipe_path s;
     swiping := swiping s; title_sliced := title_sliced s;
     bomb_flash_active := bomb_flash_active s; bomb_flash_timer := bomb_flash_timer s;
     bomb_flash_duration := bomb_flash_duration s; bomb_flash_center := bomb_flash_center s;
     life_loss_duration := life_loss_duration s; life_loss_timer := v;
     life_loss_index := life_loss_index s; spawn_timer := spawn_timer s;
     spawn_interval := spawn_interval s; bomb_spawn_timer := bomb_spawn_timer s;
     bomb_spawn_interval := bomb_spawn_interval s; fruit_velocity_min := fruit_velocity_min s;
     fruit_velocity_max := fruit_velocity_max s;
     fruit_horizontal_velocity := fruit_horizontal_velocity s;
     bomb_velocity_min := bomb_velocity_min s; bomb_velocity_max := bomb_velocity_max s;
     spawn_acceleration := spawn_acceleration s;
     bomb_spawn_acceleration := bomb_spawn_acceleration s; game_mode := game_mode s;
     fruit_images := fruit_images s; game_over_frames := game_over_frames s; rnd := rnd s |}.

Definition set_life_loss_index (v : option Z) (s : FruitNinja) : FruitNinja :=
  {| running := running s; fruits := fruits s; bombs := bombs s;
     sliced_fruits := sliced_fruits s; particles := particles s; score := score s;
     best_score := best_score s; lives := lives s; game_over := game_over s; combo := combo s;
     combo_timer := combo_timer s; combo_timeout := combo_timeout s;
     show_title_screen := show_title_screen s; swipe_path := swipe_path s;
     swiping := swiping s; title_sliced := title_sliced s;
     bomb_flash_active := bomb_flash_active s; bomb_flash_timer := bomb_flash_timer s;
     bomb_flash_duration := bomb_flash_duration s; bomb_flash_center := bomb_flash_center s;
     life_loss_duration := life_loss_duration s; life_loss_timer := life_loss_timer s;
     life_loss_index := v; spawn_timer := spawn_timer s; spawn_interval := spawn_interval s;
     bomb_spawn_timer := bomb_spawn_timer s; bomb_spawn_interval := bomb_spawn_interval s;
     fruit_velocity_min := fruit_velocity_min s; fruit_velocity_max := fruit_velocity_max s;
     fruit_horizontal_velocity := fruit_horizontal_velocity s;
     bomb_velocity_min := bomb_velocity_min s; bomb_velocity_max := bomb_velocity_max s;
     spawn_acceleration := spawn_acceleration s;
     bomb_spawn_acceleration := bomb_spawn_acceleration s; game_mode := game_mode s;
     fruit_images := fruit_images s; game_over_frames := game_over_frames s; rnd := rnd s |}.

Definition set_spawn_timer (v : Z) (s : FruitNinja) : FruitNinja :=
  {| running := running s; fruits := fruits s; bombs := bombs s;
     sliced_fruits := sliced_fruits s; particles := particles s; score := score s;
     best_score := best_score s; lives := lives s; game_over := game_over s; combo := combo s;
     combo_timer := combo_timer s; combo_timeout := combo_timeout s;
     show_title_screen := show_title_screen s; swipe_path := swipe_path s;
     swiping := swiping s; title_sliced := title_sliced s;
     bomb_flash_active := bomb_flash_active s; bomb_flash_timer := bomb_flash_timer s;
     bomb_flash_duration := bomb_flash_duration s; bomb_flash_center := bomb_flash_center s;
     life_loss_duration := life_loss_duration s; life_loss_timer := life_loss_timer s;
     life_loss_index := life_loss_index s; spawn_timer := v;
     spawn_interval := spawn_interval s; bomb_spawn_timer := bomb_spawn_timer s;
     bomb_spawn_interval := bomb_spawn_interval s; fruit_velocity_min := fruit_velocity_min s;
     fruit_velocity_max := fruit_velocity_max s;
     fruit_horizontal_velocity := fruit_horizontal_velocity s;
     bomb_velocity_min := bomb_velocity_min s; bomb_velocity_max := bomb_velocity_max s;
     spawn_acceleration := spawn_acceleration s;
     bomb_spawn_acceleration := bomb_spawn_acceleration s; game_mode := game_mode s;
     fruit_images := fruit_images s; game_over_frames := game_over_frames s; rnd := rnd s |}.

Definition set_spawn_interval (v : Q) (s : FruitNinja) : FruitNinja :=
  {| running := running s; fruits := fruits s; bombs := bombs s;
     sliced_fruits := sliced_fruits s; particles := particles s; score := score s;
     best_score := best_score s; lives := lives s; game_over := game_over s; combo := combo s;
     combo_timer := combo_timer s; combo_timeout := combo_timeout s;
     show_title_screen := show_title_screen s; swipe_path := swipe_path s;
     swiping := swiping s; title_sliced := title_sliced s;
     bomb_flash_active := bomb_flash_active s; bomb_flash_timer := bomb_flash_timer s;
     bomb_flash_duration := bomb_flash_duration s; bomb_flash_center := bomb_flash_center s;
     life_loss_duration := life_loss_duration s; life_loss_timer := life_loss_timer s;
     life_loss_index := life_loss_index s; spawn_timer := spawn_timer s; spawn_interval := v;
     bomb_spawn_timer := bomb_spawn_timer s; bomb_spawn_interval := bomb_spawn_interval s;
     fruit_velocity_min := fruit_velocity_min s; fruit_velocity_max := fruit_velocity_max s;
     fruit_horizontal_velocity := fruit_horizontal_velocity s;
     bomb_velocity_min := bomb_velocity_min s; bomb_velocity_max := bomb_velocity_max s;
     spawn_acceleration := spawn_acceleration s;
     bomb_spawn_acceleration := bomb_spawn_acceleration s; game_mode := game_mode s;
     fruit_images := fruit_images s; game_over_frames := game_over_frames s; rnd := rnd s |}.

Definition set_bomb_spawn_timer (v : Z) (s : FruitNinja) : FruitNinja :=
  {| running := running s; fruits := fruits s; bombs := bombs s;
     sliced_fruits := sliced_fruits s; particles := particles s; score := score s;
     best_score := best_score s; lives := lives s; game_over := game_over s; combo := combo s;
     combo_timer := combo_timer s; combo_timeout := combo_timeout s;
     show_title_screen := show_title_screen s; swipe_path := swipe_path s;
     swiping := swiping s; title_sliced := title_sliced s;
     bomb_flash_active := bomb_flash_active s; bomb_flash_timer := bomb_flash_timer s;
     bomb_flash_duration := bomb_flash_duration s; bomb_flash_center := bomb_flash_center s;
     life_loss_duration := life_loss_duration s; life_loss_timer := life_loss_timer s;
     life_loss_index := life_loss_index s; spawn_timer := spawn_timer s;
     spawn_interval := spawn_interval s; bomb_spawn_timer := v;
     bomb_spawn_interval := bomb_spawn_interval s; fruit_velocity_min := fruit_velocity_min s;
     fruit_velocity_max := fruit_velocity_max s;
     fruit_horizontal_velocity := fruit_horizontal_velocity s;
     bomb_velocity_min := bomb_velocity_min s; bomb_velocity_max := bomb_velocity_max s;
     spawn_acceleration := spawn_acceleration s;
     bomb_spawn_acceleration := bomb_spawn_acceleration s; game_mode := game_mode s;
     fruit_images := fruit_images s; game_over_frames := game_over_frames s; rnd := rnd s |}.

Definition set_bomb_spawn_interval (v : Q) (s : FruitNinja) : FruitNinja :=
  {| running := running s; fruits := fruits s; bombs := bombs s;
     sliced_fruits := sliced_fruits s; particles := particles s; score := score s;
     best_score := best_score s; lives := lives s; game_over := game_over s; combo := combo s;
     combo_timer := combo_timer s; combo_timeout := combo_timeout s;
     show_title_screen := show_title_screen s; swipe_path := swipe_path s;
     swiping := swiping s; title_sliced := title_sliced s;
     bomb_flash_active := bomb_flash_active s; bomb_flash_timer := bomb_flash_timer s;
     bomb_flash_duration := bomb_flash_duration s; bomb_flash_center := bomb_flash_center s;
     life_loss_duration := life_loss_duration s; life_loss_timer := life_loss_timer s;
     life_loss_index := life_loss_index s; spawn_timer := spawn_timer s;
     spawn_interval := spawn_interval s; bomb_spawn_timer := bomb_spawn_timer s;
     bomb_spawn_interval := v; fruit_velocity_min := fruit_velocity_min s;
     fruit_velocity_max := fruit_velocity_max s;
     fruit_horizontal_velocity := fruit_horizontal_velocity s;
     bomb_velocity_min := bomb_velocity_min s; bomb_velocity_max := bomb_velocity_max s;
     spawn_acceleration := spawn_acceleration s;
     bomb_spawn_acceleration := bomb_spawn_acceleration s; game_mode := game_mode s;
     fruit_images := fruit_images s; game_over_frames := game_over_frames s; rnd := rnd s |}.

Definition set_fruit_velocity_min (v : Q) (s : FruitNinja) : FruitNinja :=
  {| running := running s; fruits := fruits s; bombs := bombs s;
     sliced_fruits := sliced_fruits s; particles := particles s; score := score s;
     best_score := best_score s; lives := lives s; game_over := game_over s; combo := combo s;
     combo_timer := combo_timer s; combo_timeout := combo_timeout s;
     show_title_screen := show_title_screen s; swipe_path := swipe_path s;
     swiping := swiping s; title_sliced := title_sliced s;
     bomb_flash_active := bomb_flash_active s; bomb_flash_timer := bomb_flash_timer s;
     bomb_flash_duration := bomb_flash_duration s; bomb_flash_center := bomb_flash_center s;
     life_loss_duration := life_loss_duration s; life_loss_timer := life_loss_timer s;
     life_loss_index := life_loss_index s; spawn_timer := spawn_timer s;
     spawn_interval := spawn_interval s; bomb_spawn_timer := bomb_spawn_timer s;
     bomb_spawn_interval := bomb_spawn_interval s; fruit_velocity_min := v;
     fruit_velocity_max := fruit_velocity_max s;
     fruit_horizontal_velocity := fruit_horizontal_velocity s;
     bomb_velocity_min := bomb_velocity_min s; bomb_velocity_max := bomb_velocity_max s;
     spawn_acceleration := spawn_acceleration s;
     bomb_spawn_acceleration := bomb_spawn_acceleration s; game_mode := game_mode s;
     fruit_images := fruit_images s; game_over_frames := game_over_frames s; rnd := rnd s |}.

Definition set_fruit_velocity_max (v : Q) (s : FruitNinja) : FruitNinja :=
  {| running := running s; fruits := fruits s; bombs := bombs s;
     sliced_fruits := sliced_fruits s; particles := particles s; score := score s;
     best_score := best_score s; lives := lives s; game_over := game_over s; combo := combo s;
     combo_timer := combo_timer s; combo_timeout := combo_timeout s;
     show_title_screen := show_title_screen s; swipe_path := swipe_path s;
     swiping := swiping s; title_sliced := title_sliced s;
     bomb_flash_active := bomb_flash_active s; bomb_flash_timer := bomb_flash_timer s;
     bomb_flash_duration := bomb_flash_duration s; bomb_flash_center := bomb_flash_center s;
     life_loss_duration := life_loss_duration s; life_loss_timer := life_loss_timer s;
     life_loss_index := life_loss_index s; spawn_timer := spawn_timer s;
     spawn_interval := spawn_interval s; bomb_spawn_timer := bomb_spawn_timer s;
     bomb_spawn_interval := bomb_spawn_interval s; fruit_velocity_min := fruit_velocity_min s;
     fruit_velocity_max := v; fruit_horizontal_velocity := fruit_horizontal_velocity s;
     bomb_velocity_min := bomb_velocity_min s; bomb_velocity_max := bomb_velocity_max s;
     spawn_acceleration := spawn_acceleration s;
     bomb_spawn_acceleration := bomb_spawn_acceleration s; game_mode := game_mode s;
     fruit_images := fruit_images s; game_over_frames := game_over_frames s; rnd := rnd s |}.

Definition set_fruit_horizontal_velocity (v : Q) (s : FruitNinja) : FruitNinja :=
  {| running := running s; fruits := fruits s; bombs := bombs s;
     sliced_fruits := sliced_fruits s; particles := particles s; score := score s;
     best_score := best_score s; lives := lives s; game_over := game_over s; combo := combo s;
     combo_timer := combo_timer s; combo_timeout := combo_timeout s;
     show_title_screen := show_title_screen s; swipe_path := swipe_path s;
     swiping := swiping s; title_sliced := title_sliced s;
     bomb_flash_active := bomb_flash_active s; bomb_flash_timer := bomb_flash_timer s;
     bomb_flash_duration := bomb_flash_duration s; bomb_flash_center := bomb_flash_center s;
     life_loss_duration := life_loss_duration s; life_loss_timer := life_loss_timer s;
     life_loss_index := life_loss_index s; spawn_timer := spawn_timer s;
     spawn_interval := spawn_interval s; bomb_spawn_timer := bomb_spawn_timer s;
     bomb_spawn_interval := bomb_spawn_interval s; fruit_velocity_min := fruit_velocity_min s;
     fruit_velocity_max := fruit_velocity_max s; fruit_horizontal_velocity := v;
     bomb_velocity_min := bomb_velocity_min s; bomb_velocity_max := bomb_velocity_max s;
     spawn_acceleration := spawn_acceleration s;
     bomb_spawn_acceleration := bomb_spawn_acceleration s; game_mode := game_mode s;
     fruit_images := fruit_images s; game_over_frames := game_over_frames s; rnd := rnd s |}.

Definition set_bomb_velocity_min (v : Q) (s : FruitNinja) : FruitNinja :=
  {| running := running s; fruits := fruits s; bombs := bombs s;
     sliced_fruits := sliced_fruits s; particles := particles s; score := score s;
     best_score := best_score s; lives := lives s; game_over := game_over s; combo := combo s;
     combo_timer := combo_timer s; combo_timeout := combo_timeout s;
     show_title_screen := show_title_screen s; swipe_path := swipe_path s;
     swiping := swiping s; title_sliced := title_sliced s;
     bomb_flash_active := bomb_flash_active s; bomb_flash_timer := bomb_flash_timer s;
     bomb_flash_duration := bomb_flash_duration s; bomb_flash_center := bomb_flash_center s;
     life_loss_duration := life_loss_duration s; life_loss_timer := life_loss_timer s;
     life_loss_index := life_loss_index s; spawn_timer := spawn_timer s;
     spawn_interval := spawn_interval s; bomb_spawn_timer := bomb_spawn_timer s;
     bomb_spawn_interval := bomb_spawn_interval s; fruit_velocity_min := fruit_velocity_min s;
     fruit_velocity_max := fruit_velocity_max s;
     fruit_horizontal_velocity := fruit_horizontal_velocity s; bomb_velocity_min := v;
     bomb_velocity_max := bomb_velocity_max s; spawn_acceleration := spawn_acceleration s;
     bomb_spawn_acceleration := bomb_spawn_acceleration s; game_mode := game_mode s;
     fruit_images := fruit_images s; game_over_frames := game_over_frames s; rnd := rnd s |}.

Definition set_bomb_velocity_max (v : Q) (s : FruitNinja) : FruitNinja :=
  {| running := running s; fruits := fruits s; bombs := bombs s;
     sliced_fruits := sliced_fruits s; particles := particles s; score := score s;
     best_score := best_score s; lives := lives s; game_over := game_over s; combo := combo s;
     combo_timer := combo_timer s; combo_timeout := combo_timeout s;
     show_title_screen := show_title_screen s; swipe_path := swipe_path s;
     swiping := swiping s; title_sliced := title_sliced s;
     bomb_flash_active := bomb_flash_active s; bomb_flash_timer := bomb_flash_timer s;
     bomb_flash_duration := bomb_flash_duration s; bomb_flash_center := bomb_flash_center s;
     life_loss_duration := life_loss_duration s; life_loss_timer := life_loss_timer s;
     life_loss_index := life_loss_index s; spawn_timer := spawn_timer s;
     spawn_interval := spawn_interval s; bomb_spawn_timer := bomb_spawn_timer s;
     bomb_spawn_interval := bomb_spawn_interval s; fruit_velocity_min := fruit_velocity_min s;
     fruit_velocity_max := fruit_velocity_max s;
     fruit_horizontal_velocity := fruit_horizontal_velocity s;
     bomb_velocity_min := bomb_velocity_min s; bomb_velocity_max := v;
     spawn_acceleration := spawn_acceleration s;
     bomb_spawn_acceleration := bomb_spawn_acceleration s; game_mode := game_mode s;
     fruit_images := fruit_images s; game_over_frames := game_over_frames s; rnd := rnd s |}.

Definition set_spawn_acceleration (v : Q) (s : FruitNinja) : FruitNinja :=
  {| running := running s; fruits := fruits s; bombs := bombs s;
     sliced_fruits := sliced_fruits s; particles := particles s; score := score s;
     best_score := best_score s; lives := lives s; game_over := game_over s; combo := combo s;
     combo_timer := combo_timer s; combo_timeout := combo_timeout s;
     show_title_screen := show_title_screen s; swipe_path := swipe_path s;
     swiping := swiping s; title_sliced := title_sliced s;
     bomb_flash_active := bomb_flash_active s; bomb_flash_timer := bomb_flash_timer s;
     bomb_flash_duration := bomb_flash_duration s; bomb_flash_center := bomb_flash_center s;
     life_loss_duration := life_loss_duration s; life_loss_timer := life_loss_timer s;
     life_loss_index := life_loss_index s; spawn_timer := spawn_timer s;
     spawn_interval := spawn_interval s; bomb_spawn_timer := bomb_spawn_timer s;
     bomb_spawn_interval := bomb_spawn_interval s; fruit_velocity_min := fruit_velocity_min s;
     fruit_velocity_max := fruit_velocity_max s;
     fruit_horizontal_velocity := fruit_horizontal_velocity s;
     bomb_velocity_min := bomb_velocity_min s; bomb_velocity_max := bomb_velocity_max s;
     spawn_acceleration := v; bomb_spawn_acceleration := bomb_spawn_acceleration s;
     game_mode := game_mode s; fruit_images := fruit_images s;
     game_over_frames := game_over_frames s; rnd := rnd s |}.

Definition set_bomb_spawn_acceleration (v : Q) (s : FruitNinja) : FruitNinja :=
  {| running := running s; fruits := fruits s; bombs := bombs s;
     sliced_fruits := sliced_fruits s; particles := particles s; score := score s;
     best_score := best_score s; lives := lives s; game_over := game_over s; combo := combo s;
     combo_timer := combo_timer s; combo_timeout := combo_timeout s;
     show_title_screen := show_title_screen s; swipe_path := swipe_path s;
     swiping := swiping s; title_sliced := title_sliced s;
     bomb_flash_active := bomb_flash_active s; bomb_flash_timer := bomb_flash_timer s;
     bomb_flash_duration := bomb_flash_duration s; bomb_flash_center := bomb_flash_center s;
     life_loss_duration := life_loss_duration s; life_loss_timer := life_loss_timer s;
     life_loss_index := life_loss_index s; spawn_timer := spawn_timer s;
     spawn_interval := spawn_interval s; bomb_spawn_timer := bomb_spawn_timer s;
     bomb_spawn_interval := bomb_spawn_interval s; fruit_velocity_min := fruit_velocity_min s;
     fruit_velocity_max := fruit_velocity_max s;
     fruit_horizontal_velocity := fruit_horizontal_velocity s;
     bomb_velocity_min := bomb_velocity_min s; bomb_velocity_max := bomb_velocity_max s;
     spawn_acceleration := spawn_acceleration s; bomb_spawn_acceleration := v;
     game_mode := game_mode s; fruit_images := fruit_images s;
     game_over_frames := game_over_frames s; rnd := rnd s |}.

Definition set_game_mode (v : string) (s : FruitNinja) : FruitNinja :=
  {| running := running s; fruits := fruits s; bombs := bombs s;
     sliced_fruits := sliced_fruits s; particles := particles s; score := score s;
     best_score := best_score s; lives := lives s; game_over := game_over s; combo := combo s;
     combo_timer := combo_timer s; combo_timeout := combo_timeout s;
     show_title_screen := show_title_screen s; swipe_path := swipe_path s;
     swiping := swiping s; title_sliced := title_sliced s;
     bomb_flash_active := bomb_flash_active s; bomb_flash_timer := bomb_flash_timer s;
     bomb_flash_duration := bomb_flash_duration s; bomb_flash_center := bomb_flash_center s;
     life_loss_duration := life_loss_duration s; life_loss_timer := life_loss_timer s;
     life_loss_index := life_loss_index s; spawn_timer := spawn_timer s;
     spawn_interval := spawn_interval s; bomb_spawn_timer := bomb_spawn_timer s;
     bomb_spawn_interval := bomb_spawn_interval s; fruit_velocity_min := fruit_velocity_min s;
     fruit_velocity_max := fruit_velocity_max s;
     fruit_horizontal_velocity := fruit_horizontal_velocity s;
     bomb_velocity_min := bomb_velocity_min s; bomb_velocity_max := bomb_velocity_max s;
     spawn_acceleration := spawn_acceleration s;
     bomb_spawn_acceleration := bomb_spawn_acceleration s; game_mode := v;
     fruit_images := fruit_images s; game_over_frames := game_over_frames s; rnd := rnd s |}.

Definition set_fruit_images (v : list (string * FruitAsset)) (s : FruitNinja) : FruitNinja :=
  {| running := running s; fruits := fruits s; bombs := bombs s;
     sliced_fruits := sliced_fruits s; particles := particles s; score := score s;
     best_score := best_score s; lives := lives s; game_over := game_over s; combo := combo s;
     combo_timer := combo_timer s; combo_timeout := combo_timeout s;
     show_title_screen := show_title_screen s; swipe_path := swipe_path s;
     swiping := swiping s; title_sliced := title_sliced s;
     bomb_flash_active := bomb_flash_active s; bomb_flash_timer := bomb_flash_timer s;
     bomb_flash_duration := bomb_flash_duration s; bomb_flash_center := bomb_flash_center s;
     life_loss_duration := life_loss_duration s; life_loss_timer := life_loss_timer s;
     life_loss_index := life_loss_index s; spawn_timer := spawn_timer s;
     spawn_interval := spawn_interval s; bomb_spawn_timer := bomb_spawn_timer s;
     bomb_spawn_interval := bomb_spawn_interval s; fruit_velocity_min := fruit_velocity_min s;
     fruit_velocity_max := fruit_velocity_max s;
     fruit_horizontal_velocity := fruit_horizontal_velocity s;
     bomb_velocity_min := bomb_velocity_min s; bomb_velocity_max := bomb_velocity_max s;
     spawn_acceleration := spawn_acceleration s;
     bomb_spawn_acceleration := bomb_spawn_acceleration s; game_mode := game_mode s;
     fruit_images := v; game_over_frames := game_over_frames s; rnd := rnd s |}.

Definition set_game_over_frames (v : Z) (s : FruitNinja) : FruitNinja :=
  {| running := running s; fruits := fruits s; bombs := bombs s;
     sliced_fruits := sliced_fruits s; particles := particles s; score := score s;
     best_score := best_score s; lives := lives s; game_over := game_over s; combo := combo s;
     combo_timer := combo_timer s; combo_timeout := combo_timeout s;
     show_title_screen := show_title_screen s; swipe_path := swipe_path s;
     swiping := swiping s; title_sliced := title_sliced s;
     bomb_flash_active := bomb_flash_active s; bomb_flash_timer := bomb_flash_timer s;
     bomb_flash_duration := bomb_flash_duration s; bomb_flash_center := bomb_flash_center s;
     life_loss_duration := life_loss_duration s; life_loss_timer := life_loss_timer s;
     life_loss_index := life_loss_index s; spawn_timer := spawn_timer s;
     spawn_interval := spawn_interval s; bomb_spawn_timer := bomb_spawn_timer s;
     bomb_spawn_interval := bomb_spawn_interval s; fruit_velocity_min := fruit_velocity_min s;
     fruit_velocity_max := fruit_velocity_max s;
     fruit_horizontal_velocity := fruit_horizontal_velocity s;
     bomb_velocity_min := bomb_velocity_min s; bomb_velocity_max := bomb_velocity_max s;
     spawn_acceleration := spawn_acceleration s;
     bomb_spawn_acceleration := bomb_spawn_acceleration s; game_mode := game_mode s;
     fruit_images := fruit_images s; game_over_frames := v; rnd := rnd s |}.

Definition set_rnd (v : list Q) (s : FruitNinja) : FruitNinja :=
  {| running := running s; fruits := fruits s; bombs := bombs s;
     sliced_fruits := sliced_fruits s; particles := particles s; score := score s;
     best_score := best_score s; lives := lives s; game_over := game_over s; combo := combo s;
     combo_timer := combo_timer s; combo_timeout := combo_timeout s;
     show_title_screen := show_title_screen s; swipe_path := swipe_path s;
     swiping := swiping s; title_sliced := title_sliced s;
     bomb_flash_active := bomb_flash_active s; bomb_flash_timer := bomb_flash_timer s;
     bomb_flash_duration := bomb_flash_duration s; bomb_flash_center := bomb_flash_center s;
     life_loss_duration := life_loss_duration s; life_loss_timer := life_loss_timer s;
     life_loss_index := life_loss_index s; spawn_timer := spawn_timer s;
     spawn_interval := spawn_interval s; bomb_spawn_timer := bomb_spawn_timer s;
     bomb_spawn_interval := bomb_spawn_interval s; fruit_velocity_min := fruit_velocity_min s;
     fruit_velocity_max := fruit_velocity_max s;
     fruit_horizontal_velocity := fruit_horizontal_velocity s;
     bomb_velocity_min := bomb_velocity_min s; bomb_velocity_max := bomb_velocity_max s;
     spawn_acceleration := spawn_acceleration s;
     bomb_spawn_acceleration := bomb_spawn_acceleration s; game_mode := game_mode s;
     fruit_images := fruit_images s; game_over_frames := game_over_frames s; rnd := v |}.

(** ** A state monad over the game object

    Every method of [FruitNinja] reads and writes [self]; it is modelled as
    a computation in this monad. *)

Definition M (A : Type) : Type := FruitNinja -> A * FruitNinja.

Definition ret {A : Type} (a : A) : M A := fun s => (a, s).

Definition bind {A B : Type} (m : M A) (k : A -> M B) : M B :=
  fun s => let '(a, s') := m s in k a s'.

Notation "x <- m ;; k" := (bind m (fun x => k))
  (at level 61, m at next level, right associativity).
Notation "m ;; k" := (bind m (fun _ => k)) (at level 61, right associativity).

Definition gets {A : Type} (f : FruitNinja -> A) : M A := fun s => (f s, s).

Definition modify (f : FruitNinja -> FruitNinja) : M unit := fun s => (tt, f s).

Definition when (b : bool) (m : M unit) : M unit := if b then m else ret tt.

(** [for x in l: body(x)] *)
Fixpoint for_ {A : Type} (l : list A) (body : A -> M unit) : M unit :=
  match l with
  | [] => ret tt
  | x :: l' => body x ;; for_ l' body
  end.

(** Run a computation and keep the final state. *)
Definition exec {A : Type} (m : M A) (s : FruitNinja) : FruitNinja := snd (m s).

(** ** The [random] module *)

(** One draw of [random.random()]; the stream is finite in the model and
    yields 0 once exhausted. *)
Definition rand_unit : M Q :=
  fun s => match rnd s with
           | [] => (0%Q, s)
           | u :: us => (u, set_rnd us s)
           end.

(** [random.uniform(a, b)] *)
Definition uniform (a b : Q) : M Q :=
  u <- rand_unit ;; ret (a + (b - a) * u)%Q.

(** [random.randint(a, b)] *)
Definition randint (a b : Z) : M Z :=
  u <- rand_unit ;;
  ret (a + Z.min (b - a) (Z.max 0 (Qfloor (inject_Z (b - a + 1) * u)))).

(** [random.choice(l)]; [d] stands for the [IndexError] of an empty list. *)
Definition choice {A : Type} (d : A) (l : list A) : M A :=
  i <- randint 0 (Z.of_nat (List.length l) - 1) ;; ret (nth (Z.to_nat i) l d).

(** ** Constructors with random initial values *)

Definition clamp_channel (c : Z) : Z := Z.max 0 (Z.min 255 c).

(** [Particle.__init__]: the color normalisation clamps each channel. *)
Definition Particle_new (x y : Q) (color : Color) : M Particle :=
  vx <- uniform (-5) 5 ;;
  vy <- uniform (-5) 5 ;;
  size <- randint 3 8 ;;
  let '(r, g, b) := color in
  ret {| p_x := x; p_y := y; p_vx := vx; p_vy := vy;
         p_color := (clamp_channel r, clamp_channel g, clamp_channel b);
         p_size := size; p_life := 30 |}.

(** [math.pi], to the precision of the rational 355/113. *)
Definition PI_Q : Q := 355 # 113.

(** [1 - x2/d1 (1 - x2/d2 (1 - ...))]: the Taylor series of [cos] and
    [sin] in Horner form. *)
Fixpoint horner (x2 : Q) (ds : list Q) : Q :=
  match ds with
  | [] => 1
  | d :: ds' => 1 - x2 / d * horner x2 ds'
  end.

(** [math.cos] and [math.sin] on [[0, 2 pi]]: after the shift by [pi]
    ([cos a = - cos (a - pi)], [sin a = - sin (a - pi)]) the argument is in
    [[-pi, pi]], where the series to degree 16 and 17 are within about [10^-6]
    of the functions. *)
Definition py_cos (a : Q) : Q :=
  let x := (a - PI_Q)%Q in
  Qred (- horner (x * x) [2; 12; 30; 56; 90; 132; 182; 240])%Q.

Definition py_sin (a : Q) : Q :=
  let x := (a - PI_Q)%Q in
  Qred (- (x * horner (x * x) [6; 20; 42; 72; 110; 156; 210; 272]))%Q.

(** [SlicedFruit.__init__] *)
Definition SlicedFruit_new (x y : Q) (t : string) : M SlicedFruit :=
  angle <- uniform 0 (2 * PI_Q) ;;
  speed <- uniform 3 6 ;;
  r1 <- uniform (-10) 10 ;;
  r2 <- uniform (-10) 10 ;;
  let cs := py_cos angle in
  let sn := py_sin angle in
  ret {| sf_type := t; sf_life := 60;
         half1_x := x; half1_y := y; half2_x := x; half2_y := y;
         half1_vx := cs * speed; half1_vy := sn * speed - 2;
         half2_vx := - cs * speed; half2_vy := - sn * speed - 2;
         rotation1 := 0; rotation2 := 0;
         rotation_speed1 := r1; rotation_speed2 := r2 |}%Q.

(** [Fruit.__init__] (no color argument is passed by [spawn_fruit]). *)
Definition Fruit_new (x y : Q) (t : string) (radius : Z) (has_cut : bool) : M Fruit :=
  vx <- uniform (-2) 2 ;;
  vy <- uniform (-2) 2 ;;
  rot <- uniform (-5) 5 ;;
  ret {| fruit_x := x; fruit_y := y; fruit_vx := vx; fruit_vy := vy;
         fruit_angle := 0; fruit_rotation_speed := rot; fruit_radius := radius;
         fruit_type := t; fruit_has_cut := has_cut; fruit_color := RED |}.

(** [Bomb.__init__] *)
Definition Bomb_new (x y : Q) : M Bomb :=
  vx <- uniform (-2) 2 ;;
  vy <- uniform (-2) 2 ;;
  rot <- uniform (-5) 5 ;;
  ret {| bomb_x := x; bomb_y := y; bomb_vx := vx; bomb_vy := vy;
         bomb_angle := 0; bomb_rotation_speed := rot; bomb_radius := 30;
         bomb_pulse_timer := 0 |}.

(** ** Spawning *)

Definition lookup_asset (t : string) (imgs : list (string * FruitAsset)) : option FruitAsset :=
  match find (fun kv => String.eqb (fst kv) t) imgs with
  | Some (_, a) => Some a
  | None => None
  end.

(** [FruitNinja.get_random_fruit_type] *)
Definition get_random_fruit_type : M string :=
  imgs <- gets fruit_images ;;
  match imgs with
  | [] => ret "apple"%string
  | _ => choice "apple"%string (map fst imgs)
  end.

(** [FruitNinja.spawn_fruit] *)
Definition spawn_fruit : M unit :=
  x <- randint 80 (SCREEN_WIDTH - 80) ;;
  let y := GAME_AREA_Y + GAME_AREA_HEIGHT + 30 in
  h <- gets fruit_horizontal_velocity ;;
  vx <- uniform (- h) h ;;
  vmin <- gets fruit_velocity_min ;;
  vmax <- gets fruit_velocity_max ;;
  vy <- uniform vmin vmax ;;
  t <- get_random_fruit_type ;;
  imgs <- gets fruit_images ;;
  look <- match lookup_asset t imgs with
          | Some a => r <- choice 30 (asset_whole_radii a) ;; ret (r, asset_has_cut a)
          | None => ret (30, false)
          end ;;
  let '(radius, has_cut) := look in
  f <- Fruit_new (inject_Z x) (inject_Z y) t radius has_cut ;;
  let f := {| fruit_x := fruit_x f; fruit_y := fruit_y f; fruit_vx := vx; fruit_vy := vy;
              fruit_angle := fruit_angle f; fruit_rotation_speed := fruit_rotation_speed f;
              fruit_radius := fruit_radius f; fruit_type := fruit_type f;
              fruit_has_cut := fruit_has_cut f; fruit_color := fruit_color f |} in
  modify (fun s => set_fruits (fruits s ++ [f]) s).

(** [FruitNinja.spawn_bomb] *)
Definition spawn_bomb : M unit :=
  x <- randint 80 (SCREEN_WIDTH - 80) ;;
  let y := GAME_AREA_Y + GAME_AREA_HEIGHT + 30 in
  vx <- uniform (-4) 4 ;;
  vmin <- gets bomb_velocity_min ;;
  vmax <- gets bomb_velocity_max ;;
  vy <- uniform vmin vmax ;;
  b <- Bomb_new (inject_Z x) (inject_Z y) ;;
  let b := {| bomb_x := bomb_x b; bomb_y := bomb_y b; bomb_vx := vx; bomb_vy := vy;
              bomb_angle := bomb_angle b; bomb_rotation_speed := bomb_rotation_speed b;
              bomb_radius := bomb_radius b; bomb_pulse_timer := bomb_pulse_timer b |} in
  modify (fun s => set_bombs (bombs s ++ [b]) s).

(** ** Collision geometry *)

(** [FruitNinja.point_line_distance] *)
Definition point_line_distance (px py x1 y1 x2 y2 : R) : R :=
  let A := (px - x1)%R in
  let B := (py - y1)%R in
  let C := (x2 - x1)%R in
  let D := (y2 - y1)%R in
  let dot := (A * C + B * D)%R in
  let len_sq := (C * C + D * D)%R in
  if Req_dec_T len_sq 0 then sqrt (A * A + B * B) else
  let param := (dot / len_sq)%R in
  let xx := if Rlt_dec param 0 then x1
            else if Rlt_dec 1 param then x2
            else (x1 + param * C)%R in
  let yy := if Rlt_dec param 0 then y1
            else if Rlt_dec 1 param then y2
            else (y1 + param * D)%R in
  let dx := (px - xx)%R in
  let dy := (py - yy)%R in
  sqrt (dx * dx + dy * dy).

(** The consecutive point pairs [(path[i], path[i + 1])] visited by the
    loops over [range(len(self.swipe_path) - 1)]. *)
Fixpoint segments (path : list (Q * Q)) : list ((Q * Q) * (Q * Q)) :=
  match path with
  | p :: ((q :: _) as rest) => (p, q) :: segments rest
  | _ => []
  end.

(** [distance < radius] for one segment. *)
Definition segment_hits (cx cy : Q) (radius : Z) (seg : (Q * Q) * (Q * Q)) : bool :=
  let '((x1, y1), (x2, y2)) := seg in
  if Rlt_dec (point_line_distance (Q2R cx) (Q2R cy) (Q2R x1) (Q2R y1) (Q2R x2) (Q2R y2))
             (IZR radius)
  then true else false.

(** [FruitNinja.check_slice], with [self.swipe_path] passed as [path]. *)
Definition check_slice (path : list (Q * Q)) (f : Fruit) : bool :=
  if (List.length path <? 2)%nat then false
  else existsb (segment_hits (fruit_x f) (fruit_y f) (fruit_radius f)) (segments path).

(** [FruitNinja.check_bomb_slice] *)
Definition check_bomb_slice (path : list (Q * Q)) (b : Bomb) : bool :=
  if (List.length path <? 2)%nat then false
  else existsb (segment_hits (bomb_x b) (bomb_y b) (bomb_radius b)) (segments path).

(** [FruitNinja.check_title_slice] *)
Definition check_title_slice (path : list (Q * Q)) : bool :=
  if (List.length path <? 2)%nat then false else
  let subtitle_y := inject_Z (SCREEN_HEIGHT / 2 + 50) in
  let subtitle_x_center := inject_Z (SCREEN_WIDTH / 2) in
  let half_width := inject_Z (300 / 2) in
  existsb (fun seg =>
    let '((x1, y1), (x2, y2)) := seg in
    let min_y := Qmin y1 y2 in
    let max_y := Qmax y1 y2 in
    let lo_y := (subtitle_y - 25)%Q in
    let hi_y := (subtitle_y + 25)%Q in
    if (Qleb lo_y min_y && Qleb min_y hi_y) || (Qleb lo_y max_y && Qleb max_y hi_y)
       || (Qltb min_y lo_y && Qltb hi_y max_y) then
      let min_x := Qmin x1 x2 in
      let max_x := Qmax x1 x2 in
      let lo_x := (subtitle_x_center - half_width)%Q in
      let hi_x := (subtitle_x_center + half_width)%Q in
      (Qleb lo_x min_x && Qleb min_x hi_x) || (Qleb lo_x max_x && Qleb max_x hi_x)
      || (Qltb min_x lo_x && Qltb hi_x max_x)
    else false) (segments path).

(** ** Slice resolution *)

Definition push_particle (p : Particle) : M unit :=
  modify (fun s => set_particles (particles s ++ [p]) s).

(** The points awarded for a slice once [self.combo] has been incremented:
    [combo_multiplier = max(1, self.combo - 1); points = 1 + combo_multiplier]. *)
Definition slice_points (combo_after : Z) : Z :=
  let combo_multiplier := Z.max 1 (combo_after - 1) in
  1 + combo_multiplier.

(** The first part of [FruitNinja.slice_fruit]: the split halves (when the
    fruit has a cut image) and the particle bursts. *)
Definition slice_fruit_effects (f : Fruit) : M unit :=
  when (fruit_has_cut f)
    (h <- SlicedFruit_new (fruit_x f) (fruit_y f) (fruit_type f) ;;
     modify (fun s => set_sliced_fruits (sliced_fruits s ++ [h]) s)) ;;
  for_ (repeat tt 5) (fun _ =>
    p <- Particle_new (fruit_x f) (fruit_y f) (fruit_color f) ;; push_particle p) ;;
  for_ (repeat tt 1) (fun _ =>
    dx <- randint (-20) 20 ;;
    dy <- randint (-20) 20 ;;
    let fragment_x := (fruit_x f + inject_Z dx)%Q in
    let fragment_y := (fruit_y f + inject_Z dy)%Q in
    for_ (repeat tt 2) (fun _ =>
      p <- Particle_new fragment_x fragment_y YELLOW ;; push_particle p)).

(** The second part of [FruitNinja.slice_fruit]: combo and score. *)
Definition slice_fruit_score : M unit :=
  modify (fun s => set_combo (combo s + 1) s) ;;
  modify (fun s => set_combo_timer (combo_timeout s) s) ;;
  c <- gets combo ;;
  let points := slice_points c in
  modify (fun s => set_score (score s + points) s) ;;
  modify (fun s => if best_score s <? score s then set_best_score (score s) s else s).

(** [FruitNinja.slice_fruit] *)
Definition slice_fruit (f : Fruit) : M unit :=
  slice_fruit_effects f ;; slice_fruit_score.

(** [FruitNinja.start_bomb_flash] *)
Definition start_bomb_flash (b : Bomb) : M unit :=
  modify (set_game_over true) ;;
  modify (set_bomb_flash_center (Some (bomb_x b, bomb_y b))) ;;
  modify (set_bomb_flash_active true) ;;
  modify (set_bomb_flash_timer 0) ;;
  modify (set_fruits []) ;;
  modify (set_bombs []).

(** ** Difficulty and restart *)

Record Difficulty := mkDifficulty {
  d_spawn_interval : Q; d_bomb_spawn_interval : Q;
  d_fruit_velocity_min : Q; d_fruit_velocity_max : Q;
  d_fruit_horizontal_velocity : Q;
  d_bomb_velocity_min : Q; d_bomb_velocity_max : Q;
  d_spawn_acceleration : Q; d_bomb_spawn_acceleration : Q
}.

(** The three branches of [apply_game_mode_difficulty]. *)
Definition difficulty_of (mode : string) : Difficulty :=
  if String.eqb mode "Kolay" then
    mkDifficulty 90 9999 (-12) (-9) 3 (-8) (-6) (3 # 10) 0
  else if String.eqb mode "Zor" then
    mkDifficulty 35 150 (-22) (-15) 9 (-13) (-10) 2 10
  else
    mkDifficulty 55 280 (-18) (-12) 7 (-11) (-9) (12 # 10) 6.

(** [FruitNinja.apply_game_mode_difficulty] *)
Definition apply_game_mode_difficulty (s : FruitNinja) : FruitNinja :=
  let d := difficulty_of (game_mode s) in
  set_bomb_spawn_acceleration (d_bomb_spawn_acceleration d)
  (set_spawn_acceleration (d_spawn_acceleration d)
  (set_bomb_velocity_max (d_bomb_velocity_max d)
  (set_bomb_velocity_min (d_bomb_velocity_min d)
  (set_fruit_horizontal_velocity (d_fruit_horizontal_velocity d)
  (set_fruit_velocity_max (d_fruit_velocity_max d)
  (set_fruit_velocity_min (d_fruit_velocity_min d)
  (set_bomb_spawn_interval (d_bomb_spawn_interval d)
  (set_spawn_interval (d_spawn_interval d) s)))))))).

(** [FruitNinja.reset_game] *)
Definition reset_game (s : FruitNinja) : FruitNinja :=
  apply_game_mode_difficulty
  (set_life_loss_timer 0
  (set_life_loss_index None
  (set_combo_timer 0
  (set_combo 0
  (set_bomb_spawn_timer 0
  (set_spawn_timer 0
  (set_swipe_path []
  (set_show_title_screen false
  (set_game_over false
  (set_lives MAX_LIVES
  (set_score 0
  (set_particles []
  (set_sliced_fruits []
  (set_bombs []
  (set_fruits [] s))))))))))))))).

(** ** Input events *)

Inductive Event :=
| QUIT
| MOUSEBUTTONDOWN (button : Z) (pos : Q * Q)
| MOUSEBUTTONUP (button : Z)
| MOUSEMOTION (pos : Q * Q)
| KEYDOWN (key : Z)
| OTHER_EVENT.

Definition K_SPACE : Z := 32.

(** The bomb and fruit checks of a [MOUSEMOTION] event during play; the
    result is [true] when the handler executes its [return]. *)
Definition motion_slices : M bool :=
  path <- gets swipe_path ;;
  bs <- gets bombs ;;
  match find (check_bomb_slice path) bs with
  | Some b => start_bomb_flash b ;; ret true
  | None =>
      fs <- gets fruits ;;
      let fruits_to_remove := filter (check_slice path) fs in
      for_ fruits_to_remove slice_fruit ;;
      modify (fun s => set_fruits (filter (fun f => negb (check_slice path f)) (fruits s)) s) ;;
      ret false
  end.

(** One iteration of the [for event in pygame.event.get()] loop of
    [FruitNinja.handle_events]; [true] means the method returned. *)
Definition handle_event (e : Event) : M bool :=
  match e with
  | QUIT => modify (set_running false) ;; ret false
  | MOUSEBUTTONDOWN button pos =>
      when (button =? 1) (modify (set_swiping true) ;; modify (set_swipe_path [pos])) ;;
      ret false
  | MOUSEBUTTONUP button =>
      when (button =? 1) (modify (set_swiping false) ;; modify (set_swipe_path [])) ;;
      ret false
  | MOUSEMOTION pos =>
      sw <- gets swiping ;;
      if sw then
        modify (fun s => set_swipe_path (swipe_path s ++ [pos]) s) ;;
        title <- gets show_title_screen ;;
        when title
          (path <- gets swipe_path ;;
           when (check_title_slice path)
             (modify (set_show_title_screen false) ;; modify (set_title_sliced true))) ;;
        go <- gets game_over ;;
        title' <- gets show_title_screen ;;
        if negb go && negb title' then motion_slices else ret false
      else ret false
  | KEYDOWN key =>
      go <- gets game_over ;;
      when (go && (key =? K_SPACE)) (modify reset_game) ;;
      ret false
  | OTHER_EVENT => ret false
  end.

(** [FruitNinja.handle_events] on one batch of events. *)
Fixpoint handle_events (evs : list Event) : M unit :=
  match evs with
  | [] => ret tt
  | e :: evs' => stop <- handle_event e ;; if stop then ret tt else handle_events evs'
  end.

(** ** The tick *)

(** The body of the loop over [fruits_to_remove] in [update], after the
    removal from [self.fruits]. *)
Definition lose_life : M unit :=
  modify (fun s => set_lives (lives s - 1) s) ;;
  modify (fun s => set_life_loss_index (Some (MAX_LIVES - lives s - 1)) s) ;;
  modify (fun s => set_life_loss_timer (life_loss_duration s) s) ;;
  modify (fun s => if (lives s <=? 0) && negb (game_over s) then set_game_over true s else s).

(** The fruit spawner of [update]. *)
Definition tick_fruit_spawner : M unit :=
  modify (fun s => set_spawn_timer (spawn_timer s + 1) s) ;;
  t <- gets spawn_timer ;;
  iv <- gets spawn_interval ;;
  when (Qleb iv (inject_Z t))
    (spawn_fruit ;;
     modify (set_spawn_timer 0) ;;
     modify (fun s =>
       let min_interval := if String.eqb (game_mode s) "Zor" then 20%Q else 30%Q in
       set_spawn_interval (Qmax min_interval (spawn_interval s - spawn_acceleration s)) s)).

(** The bomb spawner of [update]. *)
Definition tick_bomb_spawner : M unit :=
  mode <- gets game_mode ;;
  when (negb (String.eqb mode "Kolay"))
    (modify (fun s => set_bomb_spawn_timer (bomb_spawn_timer s + 1) s) ;;
     t <- gets bomb_spawn_timer ;;
     iv <- gets bomb_spawn_interval ;;
     when (Qleb iv (inject_Z t))
       (spawn_bomb ;;
        modify (set_bomb_spawn_timer 0) ;;
        modify (fun s =>
          let min_bomb_interval := if String.eqb (game_mode s) "Zor" then 100%Q else 180%Q in
          set_bomb_spawn_interval
            (Qmax min_bomb_interval (bomb_spawn_interval s - bomb_spawn_acceleration s)) s))).

(** [FruitNinja.update] *)
Definition update : M unit :=
  title <- gets show_title_screen ;;
  if title then ret tt else
  go <- gets game_over ;;
  flash <- gets bomb_flash_active ;;
  if go && flash then
    modify (fun s => set_bomb_flash_timer (bomb_flash_timer s + 1) s) ;;
    modify (fun s =>
      if Qleb (bomb_flash_duration s) (inject_Z (bomb_flash_timer s))
      then set_bomb_flash_active false s else s)
  else
    tick_fruit_spawner ;;
    tick_bomb_spawner ;;
    modify (fun s => set_fruits (map fruit_update (fruits s)) s) ;;
    fs <- gets fruits ;;
    let fruits_to_remove := filter fruit_is_missed fs in
    modify (set_fruits (filter (fun f => negb (fruit_is_missed f)) fs)) ;;
    for_ fruits_to_remove (fun _ => lose_life) ;;
    modify (fun s => set_bombs (map bomb_update (bombs s)) s) ;;
    modify (fun s => set_sliced_fruits (map sliced_update (sliced_fruits s)) s) ;;
    modify (fun s => set_sliced_fruits (filter sliced_is_alive (sliced_fruits s)) s) ;;
    modify (fun s => set_particles (map particle_update (particles s)) s) ;;
    modify (fun s => set_particles (filter particle_is_alive (particles s)) s).

(** The state change made by [FruitNinja.draw_ui]: the heart animation's
    countdown. *)
Definition draw_ui_effects : M unit :=
  modify (fun s => if 0 <? life_loss_timer s
                   then set_life_loss_timer (life_loss_timer s - 1) s else s).

(** The state changes made by [FruitNinja.draw]: the countdown of
    [draw_ui], the [_game_over_frames] counter (0 while the attribute is
    absent) and the end of the loop. *)
Definition draw_effects : M unit :=
  title <- gets show_title_screen ;;
  if title then ret tt else
  go <- gets game_over ;;
  flash <- gets bomb_flash_active ;;
  center <- gets bomb_flash_center ;;
  if go && flash && (if center then true else false) then ret tt else
  draw_ui_effects ;;
  when go
    (modify (fun s => set_game_over_frames (game_over_frames s + 1) s) ;;
     modify (fun s =>
       if Qltb (inject_Z FPS * (3 # 2)) (inject_Z (game_over_frames s))
       then set_running false s else s)).

(** One iteration of the [while self.running] loop of [FruitNinja.run]. *)
Definition run_step (evs : list Event) : M unit :=
  handle_events evs ;; update ;; draw_effects.

(** [FruitNinja.run] on a finite sequence of event batches. *)
Fixpoint run (batches : list (list Event)) : M unit :=
  match batches with
  | [] => ret tt
  | evs :: rest =>
      r <- gets running ;;
      if r then run_step evs ;; run rest else ret tt
  end.

(** [FruitNinja.__init__] with mode [mode], no settings, fruit catalogue
    [imgs] and random stream [rs]; [best] is the stored best score. *)
Definition init_game (mode : string) (imgs : list (string * FruitAsset)) (best : Z)
    (rs : list Q) : FruitNinja :=
  apply_game_mode_difficulty
  {| running := true; fruits := []; bombs := []; sliced_fruits := []; particles := [];
     score := 0; best_score := best; lives := MAX_LIVES; game_over := false;
     combo := 0; combo_timer := 0; combo_timeout := 120;
     show_title_screen := true; swipe_path := []; swiping := false; title_sliced := false;
     bomb_flash_active := false; bomb_flash_timer := 0;
     bomb_flash_duration := inject_Z FPS * (7 # 10); bomb_flash_center := None;
     life_loss_duration := FPS * 6 / 10; life_loss_timer := 0;
     life_loss_index := None;
     spawn_timer := 0; spawn_interval := 60; bomb_spawn_timer := 0; bomb_spawn_interval := 300;
     fruit_velocity_min := -16; fruit_velocity_max := -11; fruit_horizontal_velocity := 6;
     bomb_velocity_min := -10; bomb_velocity_max := -8;
     spawn_acceleration := 1; bomb_spawn_acceleration := 5;
     game_mode := mode; fruit_images := imgs; game_over_frames := 0; rnd := rs |}.

(** ** [brighten_color] and [splash.py] *)

(** Python's [int()] on a float: truncation toward zero. *)
Definition py_int (q : Q) : Z := Z.quot (Qnum q) (Zpos (Qden q)).

(** [brighten_color] on one channel with its defaults [factor = 1.25] and
    [offset = 20]. *)
Definition brighten_channel (c : Z) : Z :=
  Z.max 0 (Z.min 255 (py_int (inject_Z c * (5 # 4) + inject_Z 20))).

(** [brighten_color] *)
Definition brighten_color (color : Color) : Color :=
  let '(r, g, b) := color in (brighten_channel r, brighten_channel g, brighten_channel b).

(** [class Splash] of [splash.py]: position, color and the [life] countdown
    ([max_life] is the constant 180). *)
Record Splash := mkSplash {
  splash_x : Q; splash_y : Q; splash_color : Color; splash_life : Z
}.

(** [Splash.__init__] without the surface. *)
Definition Splash_new (x y : Q) (color : Color) : Splash :=
  {| splash_x := x; splash_y := y; splash_color := color; splash_life := 180 |}.

(** [Splash.update] *)
Definition splash_update (sp : Splash) : Splash :=
  {| splash_x := splash_x sp; splash_y := splash_y sp; splash_color := splash_color sp;
     splash_life := splash_life sp - 1 |}.

(** [Splash.is_alive] *)
Definition splash_is_alive (sp : Splash) : bool := 0 <? splash_life sp.

(** * Proofs *)

(** ** Frame reasoning: a computation that leaves a view of the state alone *)

Section Frame.

Context {V : Type} (g : FruitNinja -> V).

Definition preserves {A : Type} (m : M A) : Prop := forall s, g (snd (m s)) = g s.

Lemma preserves_ret {A : Type} (a : A) : preserves (ret a).
Proof. intro s. reflexivity. Qed.

Lemma preserves_gets {A : Type} (f : FruitNinja -> A) : preserves (gets f).
Proof. intro s. reflexivity. Qed.

Lemma preserves_modify (f : FruitNinja -> FruitNinja) :
  (forall s, g (f s) = g s) -> preserves (modify f).
Proof. intros H s. apply H. Qed.

Lemma preserves_bind {A B : Type} (m : M A) (k : A -> M B) :
  preserves m -> (forall a, preserves (k a)) -> preserves (bind m k).
Proof.
  intros Hm Hk s. unfold bind.
  specialize (Hm s). destruct (m s) as [a s'] eqn:E.
  simpl in Hm. rewrite Hk. exact Hm.
Qed.

Lemma preserves_when (b : bool) (m : M unit) : preserves m -> preserves (when b m).
Proof. intros H. destruct b; [exact H | apply preserves_ret]. Qed.

Lemma preserves_for {A : Type} (l : list A) (body : A -> M unit) :
  (forall x, preserves (body x)) -> preserves (for_ l body).
Proof.
  intros H. induction l as [| x l IH]; simpl.
  - apply preserves_ret.
  - apply preserves_bind; [apply H | intros _; exact IH].
Qed.

Hypothesis g_rnd : forall us s, g (set_rnd us s) = g s.

Lemma preserves_rand_unit : preserves rand_unit.
Proof. intro s. unfold rand_unit. destruct (rnd s); [reflexivity | apply g_rnd]. Qed.

End Frame.

Create HintDb frame.
#[export] Hint Resolve preserves_ret preserves_gets preserves_rand_unit : frame.

(** Decompose a monadic program into its primitive steps. *)
Ltac frame_step :=
  match goal with
  | |- preserves _ (bind _ _) => apply preserves_bind; [ | intro ]
  | |- preserves _ (ret _) => apply preserves_ret
  | |- preserves _ (gets _) => apply preserves_gets
  | |- preserves _ rand_unit => apply preserves_rand_unit; intros; reflexivity
  | |- preserves _ (modify _) => apply preserves_modify; intro
  | |- preserves _ (when _ _) => apply preserves_when
  | |- preserves _ (for_ _ _) => apply preserves_for; intro
  | |- preserves _ (if ?b then _ else _) => destruct b
  | |- preserves _ (match ?x with _ => _ end) => destruct x
  | |- preserves _ (let '(_, _) := ?x in _) => destruct x
  | |- _ (if ?b then _ else _) = _ => destruct b
  | |- _ = _ => reflexivity
  end.

Ltac frame :=
  repeat (unfold uniform, randint, choice, Particle_new, SlicedFruit_new, Fruit_new,
            Bomb_new, push_particle, get_random_fruit_type, spawn_fruit, spawn_bomb,
            lose_life, tick_fruit_spawner, tick_bomb_spawner, update, draw_effects, draw_ui_effects,
            slice_fruit, start_bomb_flash, run_step, handle_events; frame_step).

(** The slice bookkeeping before the combo update touches only the random
    stream, the split halves and the particles. *)
Definition scoring_view (s : FruitNinja) : Z * Z * Z * Z * Z * Z * bool :=
  (score s, best_score s, combo s, combo_timer s, combo_timeout s, lives s, game_over s).

Lemma slice_fruit_effects_preserves (f : Fruit) :
  preserves scoring_view (slice_fruit_effects f).
Proof. unfold slice_fruit_effects. frame. Qed.

Lemma exec_seq {A : Type} (m : M unit) (k : M A) (s : FruitNinja) :
  exec (m ;; k) s = exec k (exec m s).
Proof. unfold exec, bind. destruct (m s) as [[] s']. reflexivity. Qed.

(** ** Fixtures: sessions in play *)

(** A session after the menu's START (the title screen is skipped), with no
    fruit images, best score 0 and an exhausted random stream. *)
Definition play_state (mode : string) : FruitNinja :=
  set_show_title_screen false (init_game mode [] 0 []).

Definition test_fruit (x y vy : Q) : Fruit :=
  {| fruit_x := x; fruit_y := y; fruit_vx := 0; fruit_vy := vy; fruit_angle := 0;
     fruit_rotation_speed := 0; fruit_radius := 30; fruit_type := "apple";
     fruit_has_cut := true; fruit_color := RED |}.

Definition test_bomb (x y vy : Q) : Bomb :=
  {| bomb_x := x; bomb_y := y; bomb_vx := 0; bomb_vy := vy; bomb_angle := 0;
     bomb_rotation_speed := 0; bomb_radius := 30; bomb_pulse_timer := 0 |}.

(** ** Scoring of a fruit slice *)

Lemma slice_fruit_score_exec (s : FruitNinja) :
  let s' := exec slice_fruit_score s in
  combo s' = combo s + 1 /\ combo_timer s' = combo_timeout s /\
  score s' = score s + slice_points (combo s + 1) /\
  best_score s' = Z.max (best_score s) (score s + slice_points (combo s + 1)) /\
  combo_timeout s' = combo_timeout s.
Proof.
  unfold exec, slice_fruit_score, bind, modify, gets, ret.
  cbn -[slice_points Z.add Z.ltb Z.max].
  destruct (Z.ltb_spec (best_score s) (score s + slice_points (combo s + 1)));
  cbn -[slice_points Z.add Z.max]; repeat split; lia.
Qed.

Lemma slice_fruit_exec (f : Fruit) (s : FruitNinja) :
  let s' := exec (slice_fruit f) s in
  combo s' = combo s + 1 /\ combo_timer s' = combo_timeout s /\
  score s' = score s + slice_points (combo s + 1) /\
  best_score s' = Z.max (best_score s) (score s + slice_points (combo s + 1)) /\
  combo_timeout s' = combo_timeout s.
Proof.
  cbv zeta. unfold slice_fruit. rewrite exec_seq.
  pose proof (slice_fruit_effects_preserves f s) as H.
  unfold scoring_view in H. fold (exec (slice_fruit_effects f) s) in H.
  injection H as Hsc Hbest Hcombo Htimer Htimeout _ _.
  pose proof (slice_fruit_score_exec (exec (slice_fruit_effects f) s)) as E.
  cbv zeta in E. rewrite Hsc, Hbest, Hcombo, Htimeout in E. exact E.
Qed.

(** C1 (amended): a slice adds [1 + max(1, combo - 1)] points, [combo]
    being the counter after its increment; from combo 0, three slices award
    2, 2 and 3 points. *)
Theorem slice_fruit_points (f1 f2 f3 : Fruit) (s : FruitNinja) :
  (let s' := exec (slice_fruit f1) s in
   combo s' = combo s + 1 /\ combo_timer s' = combo_timeout s /\
   score s' = score s + (1 + Z.max 1 (combo s' - 1)) /\
   best_score s' = Z.max (best_score s) (score s')) /\
  (let s0 := set_combo 0 s in
   let s1 := exec (slice_fruit f1) s0 in
   let s2 := exec (slice_fruit f2) s1 in
   let s3 := exec (slice_fruit f3) s2 in
   (score s1 - score s0, score s2 - score s1, score s3 - score s2) = (2, 2, 3)).
Proof.
  split.
  - destruct (slice_fruit_exec f1 s) as (Hc & Ht & Hs & Hb & _).
    cbv zeta in *. rewrite Hc. unfold slice_points in *.
    repeat split; try assumption; rewrite Hs; lia.
  - cbv zeta.
    set (s0 := set_combo 0 s).
    destruct (slice_fruit_exec f1 s0) as (Hc1 & _ & Hs1 & _).
    set (s1 := exec (slice_fruit f1) s0) in *.
    destruct (slice_fruit_exec f2 s1) as (Hc2 & _ & Hs2 & _).
    set (s2 := exec (slice_fruit f2) s1) in *.
    destruct (slice_fruit_exec f3 s2) as (Hc3 & _ & Hs3 & _).
    cbv zeta in *.
    rewrite Hs3, Hs2, Hs1, Hc2, Hc1. unfold slice_points. cbn [combo s0 set_combo].
    f_equal; [f_equal |]; lia.
Qed.

(** C1 counterexample: the first slice from combo 0 awards 2 points, not
    [1 + max(0, combo - 1)] = 1. *)
Lemma slice_fruit_points_counterexample :
  let s := play_state "Orta" in
  let s' := exec (slice_fruit (test_fruit 400 300 0)) s in
  combo s = 0 /\ combo s' = 1 /\ score s' - score s = 2 /\
  score s' - score s <> 1 + Z.max 0 (combo s' - 1).
Proof. vm_compute. repeat split; discriminate. Qed.

(** ** The combo counter across ticks *)

Definition combo_view (s : FruitNinja) : Z * Z := (combo s, combo_timer s).

Lemma update_preserves_combo : preserves combo_view update.
Proof. frame. Qed.

Lemma draw_effects_preserves_combo : preserves combo_view draw_effects.
Proof. frame. Qed.

Lemma run_idle_preserves_combo (n : nat) : preserves combo_view (run (repeat [] n)).
Proof.
  induction n as [| n IH]; simpl.
  - apply preserves_ret.
  - apply preserves_bind; [apply preserves_gets | intros [|]].
    + apply preserves_bind; [| intros _; exact IH].
      unfold run_step. simpl handle_events.
      apply preserves_bind; [apply preserves_ret | intros _].
      apply preserves_bind; [apply update_preserves_combo | intros _].
      apply draw_effects_preserves_combo.
    + apply preserves_ret.
Qed.

(** C2: no tick of the loop ever decrements [combo_timer] or resets
    [combo]: after any number of ticks without input both are unchanged. *)
Theorem idle_ticks_keep_combo (n : nat) (s : FruitNinja) :
  combo (exec (run (repeat [] n)) s) = combo s /\
  combo_timer (exec (run (repeat [] n)) s) = combo_timer s.
Proof.
  pose proof (run_idle_preserves_combo n s) as H.
  unfold combo_view, exec in *. injection H as H1 H2. split; assumption.
Qed.

(** ** Game over by lost lives *)

(** A session in mode Orta with one life left, a fruit about to fall out of
    the field and the fruit spawner two ticks from its interval (55). *)
Definition last_life_state : FruitNinja :=
  set_spawn_timer 53 (set_lives 1 (set_fruits [test_fruit 400 600 5] (play_state "Orta"))).

(** C3: the tick that loses the last life sets [game_over]; the loop keeps
    running and the next tick still spawns a fruit. *)
Theorem spawn_after_game_over :
  let s1 := exec (run_step []) last_life_state in
  let s2 := exec (run_step []) s1 in
  lives s1 = 0 /\ game_over s1 = true /\ bomb_flash_active s1 = false /\
  fruits s1 = [] /\ running s1 = true /\
  game_over s2 = true /\ running s2 = true /\ List.length (fruits s2) = 1%nat.
Proof. vm_compute. repeat split. Qed.

(** ** Bombs leaving the field *)

Definition falling_bomb : Bomb := test_bomb 400 700 10.

Definition falling_bomb_state : FruitNinja := set_bombs [falling_bomb] (play_state "Orta").

(** C4: a bomb already past [Bomb.is_off_screen] stays in [self.bombs]
    after the tick, and still after 20 ticks. *)
Theorem off_screen_bomb_kept :
  bomb_is_off_screen falling_bomb = true /\
  bombs (exec update falling_bomb_state) = [bomb_update falling_bomb] /\
  lives (exec update falling_bomb_state) = lives falling_bomb_state /\
  List.length (bombs (exec (run (repeat [] 20)) falling_bomb_state)) = 1%nat.
Proof. vm_compute. repeat split. Qed.

(** ** Lives *)

Definition two_misses_state : FruitNinja :=
  set_lives 1 (set_fruits [test_fruit 300 600 5; test_fruit 500 600 5] (play_state "Orta")).

(** C7: with one life left, two fruits crossing the bottom boundary on the
    same tick take [lives] to -1. *)
Theorem lives_go_negative :
  lives two_misses_state = 1 /\
  lives (exec update two_misses_state) = -1 /\
  game_over (exec update two_misses_state) = true.
Proof. vm_compute. repeat split. Qed.

(** ** Point-to-segment distance *)

Open Scope R_scope.

(** Euclidean distance between two points. *)
Definition euclid (px py qx qy : R) : R :=
  sqrt ((px - qx) * (px - qx) + (py - qy) * (py - qy)).

(** The projection parameter of [p] on the line [a -> b] and its clamp. *)
Definition projection_param (px py x1 y1 x2 y2 : R) : R :=
  ((px - x1) * (x2 - x1) + (py - y1) * (y2 - y1)) /
  ((x2 - x1) * (x2 - x1) + (y2 - y1) * (y2 - y1)).

Definition clamp01 (t : R) : R := if Rlt_dec t 0 then 0 else if Rlt_dec 1 t then 1 else t.

Lemma clamp01_range (t : R) : 0 <= clamp01 t <= 1.
Proof. unfold clamp01. destruct (Rlt_dec t 0); [lra|]. destruct (Rlt_dec 1 t); lra. Qed.

Lemma sum_squares_zero (C D : R) : C * C + D * D = 0 -> C = 0 /\ D = 0.
Proof. intros H. split; nra. Qed.

Lemma point_line_distance_degenerate (px py x1 y1 : R) :
  point_line_distance px py x1 y1 x1 y1 = euclid px py x1 y1.
Proof.
  unfold point_line_distance, euclid. cbv zeta.
  destruct (Req_dec_T _ 0) as [_ | Hn]; [reflexivity |].
  exfalso. apply Hn. ring.
Qed.

Lemma point_line_distance_clamped (px py x1 y1 x2 y2 : R) :
  (x2 - x1) * (x2 - x1) + (y2 - y1) * (y2 - y1) <> 0 ->
  let c := clamp01 (projection_param px py x1 y1 x2 y2) in
  point_line_distance px py x1 y1 x2 y2 =
  euclid px py (x1 + c * (x2 - x1)) (y1 + c * (y2 - y1)).
Proof.
  intros HL. unfold point_line_distance, clamp01, projection_param, euclid. cbv zeta.
  destruct (Req_dec_T _ 0) as [H0 | _]; [contradiction |].
  destruct (Rlt_dec _ 0); [| destruct (Rlt_dec 1 _)]; f_equal; ring.
Qed.

(** The clamped projection minimises the squared distance over [0, 1]. *)
Lemma clamp_minimises (A B C D t : R) :
  C * C + D * D <> 0 -> 0 <= t <= 1 ->
  let c := clamp01 ((A * C + B * D) / (C * C + D * D)) in
  (A - c * C) * (A - c * C) + (B - c * D) * (B - c * D) <=
  (A - t * C) * (A - t * C) + (B - t * D) * (B - t * D).
Proof.
  intros HL Ht. cbv zeta.
  set (L := C * C + D * D) in *.
  set (dot := A * C + B * D).
  assert (HLpos : 0 < L) by (assert (0 <= L) by (unfold L; nra); lra).
  assert (key : forall c,
    (A - t * C) * (A - t * C) + (B - t * D) * (B - t * D) -
    ((A - c * C) * (A - c * C) + (B - c * D) * (B - c * D)) =
    (t - c) * ((t + c) * L - 2 * dot)) by (intro; unfold L, dot; ring).
  set (p := dot / L).
  assert (Hd : dot = p * L) by (unfold p; field; exact HL).
  unfold clamp01. destruct (Rlt_dec p 0) as [Hp | Hp].
  - specialize (key 0).
    assert (0 <= (t - 0) * ((t + 0) * L - 2 * dot)) by (apply Rmult_le_pos; nra).
    lra.
  - destruct (Rlt_dec 1 p) as [Hp1 | Hp1].
    + specialize (key 1).
      assert (0 <= (1 - t) * (2 * dot - (t + 1) * L)) by (apply Rmult_le_pos; nra).
      assert ((t - 1) * ((t + 1) * L - 2 * dot) = (1 - t) * (2 * dot - (t + 1) * L)) by ring.
      lra.
    + specialize (key p).
      assert (0 <= L * ((t - p) * (t - p))) by (apply Rmult_le_pos; [lra | apply Rle_0_sqr]).
      assert ((t - p) * ((t + p) * L - 2 * dot) = L * ((t - p) * (t - p)))
        by (rewrite Hd; ring).
      lra.
Qed.

Lemma point_line_distance_le (px py x1 y1 x2 y2 t : R) :
  0 <= t <= 1 ->
  point_line_distance px py x1 y1 x2 y2 <=
  euclid px py (x1 + t * (x2 - x1)) (y1 + t * (y2 - y1)).
Proof.
  intros Ht.
  destruct (Req_dec_T ((x2 - x1) * (x2 - x1) + (y2 - y1) * (y2 - y1)) 0) as [HL | HL].
  - destruct (sum_squares_zero _ _ HL) as [Hx Hy].
    replace x2 with x1 by lra. replace y2 with y1 by lra.
    rewrite point_line_distance_degenerate. right. unfold euclid. f_equal. ring.
  - rewrite (point_line_distance_clamped _ _ _ _ _ _ HL). cbv zeta.
    unfold euclid. apply sqrt_le_1_alt.
    pose proof (clamp_minimises (px - x1) (py - y1) (x2 - x1) (y2 - y1) t HL Ht) as H.
    cbv zeta in H. unfold projection_param.
    set (c := clamp01 _) in *.
    replace (px - (x1 + c * (x2 - x1))) with (px - x1 - c * (x2 - x1)) by ring.
    replace (py - (y1 + c * (y2 - y1))) with (py - y1 - c * (y2 - y1)) by ring.
    replace (px - (x1 + t * (x2 - x1))) with (px - x1 - t * (x2 - x1)) by ring.
    replace (py - (y1 + t * (y2 - y1))) with (py - y1 - t * (y2 - y1)) by ring.
    exact H.
Qed.

Lemma point_line_distance_attained (px py x1 y1 x2 y2 : R) :
  exists t, 0 <= t <= 1 /\
  point_line_distance px py x1 y1 x2 y2 =
  euclid px py (x1 + t * (x2 - x1)) (y1 + t * (y2 - y1)).
Proof.
  destruct (Req_dec_T ((x2 - x1) * (x2 - x1) + (y2 - y1) * (y2 - y1)) 0) as [HL | HL].
  - exists 0. split; [lra |].
    destruct (sum_squares_zero _ _ HL) as [Hx Hy].
    replace x2 with x1 by lra. replace y2 with y1 by lra.
    rewrite point_line_distance_degenerate. unfold euclid. f_equal. ring.
  - exists (clamp01 (projection_param px py x1 y1 x2 y2)).
    split; [apply clamp01_range |].
    apply (point_line_distance_clamped _ _ _ _ _ _ HL).
Qed.

(** C5: [point_line_distance] is the projection-clamped distance, equals
    the point-to-point distance when [a = b], and is the minimum of the
    Euclidean distance from [p] to the points of the segment. *)
Theorem point_line_distance_spec (px py x1 y1 x2 y2 : R) :
  (x1 = x2 /\ y1 = y2 -> point_line_distance px py x1 y1 x2 y2 = euclid px py x1 y1) /\
  ((x1, y1) <> (x2, y2) ->
   let c := clamp01 (projection_param px py x1 y1 x2 y2) in
   point_line_distance px py x1 y1 x2 y2 =
   euclid px py (x1 + c * (x2 - x1)) (y1 + c * (y2 - y1))) /\
  (exists t, 0 <= t <= 1 /\
   point_line_distance px py x1 y1 x2 y2 =
   euclid px py (x1 + t * (x2 - x1)) (y1 + t * (y2 - y1))) /\
  (forall t, 0 <= t <= 1 ->
   point_line_distance px py x1 y1 x2 y2 <=
   euclid px py (x1 + t * (x2 - x1)) (y1 + t * (y2 - y1))).
Proof.
  split; [| split; [| split]].
  - intros [Hx Hy]. subst. apply point_line_distance_degenerate.
  - intros Hne. apply point_line_distance_clamped.
    intros HL. destruct (sum_squares_zero _ _ HL) as [Hx Hy].
    apply Hne. f_equal; lra.
  - apply point_line_distance_attained.
  - intros t Ht. apply point_line_distance_le. exact Ht.
Qed.

Close Scope R_scope.

(** ** Hit tests against the swipe path *)

Lemma Q2R_int (z : Z) : Q2R (z # 1) = IZR z.
Proof. unfold Q2R. simpl. rewrite Rinv_1. ring. Qed.

(** A circle whose centre lies on a segment is hit by it. *)
Lemma segment_hits_through_centre (cx cy : Q) (r : Z) (x1 y1 x2 y2 : Q) (t : R) :
  (0 < r)%Z -> (0 <= t <= 1)%R ->
  Q2R cx = (Q2R x1 + t * (Q2R x2 - Q2R x1))%R ->
  Q2R cy = (Q2R y1 + t * (Q2R y2 - Q2R y1))%R ->
  segment_hits cx cy r ((x1, y1), (x2, y2)) = true.
Proof.
  intros Hr Ht Hx Hy. unfold segment_hits.
  destruct (Rlt_dec _ _) as [_ | Hn]; [reflexivity |]. exfalso. apply Hn.
  eapply Rle_lt_trans; [apply (point_line_distance_le _ _ _ _ _ _ t Ht) |].
  unfold euclid. rewrite <- Hx, <- Hy.
  replace ((Q2R cx - Q2R cx) * (Q2R cx - Q2R cx) + (Q2R cy - Q2R cy) * (Q2R cy - Q2R cy))%R
    with 0%R by ring.
  rewrite sqrt_0. apply IZR_lt. exact Hr.
Qed.








(** ** Bomb slice *)

(** C8: [start_bomb_flash] ends the session whatever the state: game over
    with the flash at the bomb's position, no fruits or bombs left, and the
    split halves, particles, score, best score, lives and combo untouched. *)
Theorem start_bomb_flash_effect (b : Bomb) (s : FruitNinja) :
  let s' := exec (start_bomb_flash b) s in
  game_over s' = true /\ bomb_flash_active s' = true /\ bomb_flash_timer s' = 0 /\
  bomb_flash_center s' = Some (bomb_x b, bomb_y b) /\
  fruits s' = [] /\ bombs s' = [] /\
  sliced_fruits s' = sliced_fruits s /\ particles s' = particles s /\
  score s' = score s /\ best_score s' = best_score s /\ lives s' = lives s /\
  combo s' = combo s /\ combo_timer s' = combo_timer s.
Proof. cbv zeta. repeat split. Qed.

(** ** Restart *)

(** C9: the SPACE key restarts a finished session with [reset_game], whose
    result fixes lives, score, combo, collections, spawn timers and the
    mode's initial spawn intervals whatever the prior state; restarting
    twice is restarting once. *)
Theorem reset_game_fragment (s : FruitNinja) :
  let r := reset_game s in
  exec (handle_event (KEYDOWN K_SPACE)) s = (if game_over s then r else s) /\
  lives r = MAX_LIVES /\ MAX_LIVES = 3 /\ score r = 0 /\
  combo r = 0 /\ combo_timer r = 0 /\
  fruits r = [] /\ bombs r = [] /\ sliced_fruits r = [] /\ particles r = [] /\
  spawn_timer r = 0 /\ bomb_spawn_timer r = 0 /\
  spawn_interval r = d_spawn_interval (difficulty_of (game_mode s)) /\
  bomb_spawn_interval r = d_bomb_spawn_interval (difficulty_of (game_mode s)) /\
  game_over r = false /\ game_mode r = game_mode s /\
  reset_game r = r.
Proof.
  cbv zeta. split.
  - unfold exec, handle_event, bind, gets, when, modify, ret.
    destruct (game_over s); reflexivity.
  - destruct s. do 15 (split; [reflexivity |]). cbv. reflexivity.
Qed.

(** ** Bomb priority within one pointer sample *)

Lemma motion_exec_bomb (s : FruitNinja) (pos : Q * Q) (b : Bomb) (rest : list Event) :
  swiping s = true -> show_title_screen s = false -> game_over s = false ->
  find (check_bomb_slice (swipe_path s ++ [pos])) (bombs s) = Some b ->
  exec (handle_events (MOUSEMOTION pos :: rest)) s =
  exec (start_bomb_flash b) (set_swipe_path (swipe_path s ++ [pos]) s).
Proof.
  intros Hsw Ht Hgo Hfind.
  unfold exec, handle_events, handle_event, bind, gets, when, modify, ret.
  rewrite Hsw. cbn -[check_bomb_slice check_title_slice start_bomb_flash].
  rewrite Ht. cbn -[check_bomb_slice start_bomb_flash].
  rewrite Hgo, Ht. cbn -[check_bomb_slice start_bomb_flash].
  unfold motion_slices, bind, gets. cbn -[check_bomb_slice start_bomb_flash].
  rewrite Hfind. unfold start_bomb_flash, bind, modify, ret. reflexivity.
Qed.

(** C10: when the extended swipe path reaches a live bomb during play, the
    sample ends in the bomb flash: the fruits it also reaches are not
    sliced (no halves, particles, points or combo), no random draw is made
    and the remaining events of the batch are not handled. *)
Theorem bomb_slice_takes_priority (s : FruitNinja) (pos : Q * Q) (b : Bomb)
    (rest : list Event) :
  swiping s = true -> show_title_screen s = false -> game_over s = false ->
  find (check_bomb_slice (swipe_path s ++ [pos])) (bombs s) = Some b ->
  let s' := exec (handle_events (MOUSEMOTION pos :: rest)) s in
  game_over s' = true /\ bomb_flash_active s' = true /\
  bomb_flash_center s' = Some (bomb_x b, bomb_y b) /\
  score s' = score s /\ best_score s' = best_score s /\
  combo s' = combo s /\ combo_timer s' = combo_timer s /\
  sliced_fruits s' = sliced_fruits s /\ particles s' = particles s /\
  fruits s' = [] /\ lives s' = lives s /\ rnd s' = rnd s.
Proof.
  intros Hsw Ht Hgo Hfind. cbv zeta.
  rewrite (motion_exec_bomb s pos b rest Hsw Ht Hgo Hfind).
  repeat split.
Qed.

(** A swipe from (0,0) to (100,0) over a bomb at (50,0) and a fruit at (80,0). *)
Definition bomb_and_fruit_state : FruitNinja :=
  set_swipe_path [(0, 0)%Q] (set_swiping true
    (set_bombs [test_bomb 50 0 0] (set_fruits [test_fruit 80 0 0] (play_state "Orta")))).

Lemma bomb_and_fruit_hit :
  check_bomb_slice [(0, 0); (100, 0)]%Q (test_bomb 50 0 0) = true /\
  check_slice [(0, 0); (100, 0)]%Q (test_fruit 80 0 0) = true.
Proof.
  split.
  - unfold check_bomb_slice. cbn -[segment_hits].
    rewrite (segment_hits_through_centre _ _ _ _ _ _ _ (1/2)); [reflexivity | lia | lra | |];
    rewrite !Q2R_int; lra.
  - unfold check_slice. cbn -[segment_hits].
    rewrite (segment_hits_through_centre _ _ _ _ _ _ _ (4/5)); [reflexivity | lia | lra | |];
    rewrite !Q2R_int; lra.
Qed.

Lemma bomb_slice_takes_priority_witness :
  find (check_bomb_slice (swipe_path bomb_and_fruit_state ++ [(100, 0)%Q]))
       (bombs bomb_and_fruit_state) = Some (test_bomb 50 0 0) /\
  check_slice (swipe_path bomb_and_fruit_state ++ [(100, 0)%Q]) (test_fruit 80 0 0) = true /\
  (let s' := exec (handle_events [MOUSEMOTION (100, 0)%Q]) bomb_and_fruit_state in
   game_over s' = true /\ bomb_flash_active s' = true /\
   bomb_flash_center s' = Some (bomb_x (test_bomb 50 0 0), bomb_y (test_bomb 50 0 0)) /\
   score s' = score bomb_and_fruit_state /\ best_score s' = best_score bomb_and_fruit_state /\
   combo s' = combo bomb_and_fruit_state /\ combo_timer s' = combo_timer bomb_and_fruit_state /\
   sliced_fruits s' = sliced_fruits bomb_and_fruit_state /\
   particles s' = particles bomb_and_fruit_state /\
   fruits s' = [] /\ lives s' = lives bomb_and_fruit_state /\
   rnd s' = rnd bomb_and_fruit_state).
Proof.
  destruct bomb_and_fruit_hit as [Hb Hf].
  assert (Hfind : find (check_bomb_slice (swipe_path bomb_and_fruit_state ++ [(100, 0)%Q]))
                       (bombs bomb_and_fruit_state) = Some (test_bomb 50 0 0)).
  { simpl. rewrite Hb. reflexivity. }
  split; [exact Hfind |]. split; [exact Hf |].
  exact (bomb_slice_takes_priority bomb_and_fruit_state (100, 0)%Q (test_bomb 50 0 0) []
           eq_refl eq_refl eq_refl Hfind).
Defined.

(** * Further properties of the game code *)

(** ** Constructor results *)

(** A property of the value a computation returns, whatever the state. *)
Definition returns {A : Type} (P : A -> Prop) (m : M A) : Prop := forall s, P (fst (m s)).

Lemma returns_bind {A B : Type} (P : B -> Prop) (m : M A) (k : A -> M B) :
  (forall a, returns P (k a)) -> returns P (bind m k).
Proof. intros H s. unfold bind. destruct (m s) as [a s']. apply H. Qed.

Lemma Particle_new_life (x y : Q) (c : Color) :
  returns (fun p => p_life p = 30) (Particle_new x y c).
Proof.
  unfold Particle_new. do 3 (apply returns_bind; intro).
  destruct c as [[r g] b]. intro s. reflexivity.
Qed.

Lemma SlicedFruit_new_life (x y : Q) (t : string) :
  returns (fun h => sf_life h = 60) (SlicedFruit_new x y t).
Proof. unfold SlicedFruit_new. do 4 (apply returns_bind; intro). intro s. reflexivity. Qed.

(** ** Entity kinematics *)

Lemma Qle_sub_radius (r : Z) :
  (2 * r <= SCREEN_WIDTH)%Z -> (inject_Z r <= inject_Z SCREEN_WIDTH - inject_Z r)%Q.
Proof.
  intro H. unfold Qminus. rewrite <- inject_Z_opp, <- inject_Z_plus, <- Zle_Qle.
  unfold SCREEN_WIDTH in *. lia.
Qed.

(** [Fruit.update] keeps the centre of a fruit at least one radius inside
    both side walls of the 800 pixel wide field, whatever its position and
    horizontal velocity before the move. *)
Theorem fruit_update_within_width (f : Fruit) :
  (2 * fruit_radius f <= SCREEN_WIDTH)%Z ->
  (inject_Z (fruit_radius f) <= fruit_x (fruit_update f)
   <= inject_Z SCREEN_WIDTH - inject_Z (fruit_radius f))%Q.
Proof.
  intro H. unfold fruit_update. cbn [fruit_x]. split.
  - apply Q.le_max_l.
  - apply Q.max_lub; [apply Qle_sub_radius; exact H | apply Q.le_min_l].
Qed.

Lemma fruit_update_within_width_witness :
  (2 * fruit_radius (test_fruit 850 300 0) <= SCREEN_WIDTH)%Z /\
  (inject_Z (fruit_radius (test_fruit 850 300 0)) <= fruit_x (fruit_update (test_fruit 850 300 0))
   <= inject_Z SCREEN_WIDTH - inject_Z (fruit_radius (test_fruit 850 300 0)))%Q.
Proof.
  split; [vm_compute; discriminate |].
  apply fruit_update_within_width. vm_compute. discriminate.
Defined.

(** [Bomb.update] keeps the centre of a bomb at least one radius inside
    both side walls. *)
Theorem bomb_update_within_width (b : Bomb) :
  (2 * bomb_radius b <= SCREEN_WIDTH)%Z ->
  (inject_Z (bomb_radius b) <= bomb_x (bomb_update b)
   <= inject_Z SCREEN_WIDTH - inject_Z (bomb_radius b))%Q.
Proof.
  intro H. unfold bomb_update. cbn [bomb_x]. split.
  - apply Q.le_max_l.
  - apply Q.max_lub; [apply Qle_sub_radius; exact H | apply Q.le_min_l].
Qed.

Lemma bomb_update_within_width_witness :
  (2 * bomb_radius (test_bomb (-40) 300 0) <= SCREEN_WIDTH)%Z /\
  (inject_Z (bomb_radius (test_bomb (-40) 300 0)) <= bomb_x (bomb_update (test_bomb (-40) 300 0))
   <= inject_Z SCREEN_WIDTH - inject_Z (bomb_radius (test_bomb (-40) 300 0)))%Q.
Proof.
  split; [vm_compute; discriminate |].
  apply bomb_update_within_width. vm_compute. discriminate.
Defined.

(** The vertical motion of a fruit is uniformly accelerated: after [n]
    calls of [Fruit.update] its vertical speed has grown by [n * GRAVITY]
    and its height by [n * vy + GRAVITY * n * (n - 1) / 2]. *)
Theorem fruit_vertical_trajectory (f : Fruit) (n : nat) :
  let k := inject_Z (Z.of_nat n) in
  (fruit_vy (Nat.iter n fruit_update f) == fruit_vy f + k * GRAVITY /\
   fruit_y (Nat.iter n fruit_update f) == fruit_y f + k * fruit_vy f + GRAVITY * (k * (k - 1)) / 2)%Q.
Proof.
  cbv zeta. induction n as [| n [Hv Hy]].
  - change (Nat.iter 0 fruit_update f) with f. change (inject_Z (Z.of_nat 0)) with 0%Q.
    split; field.
  - change (Nat.iter (S n) fruit_update f) with (fruit_update (Nat.iter n fruit_update f)).
    unfold fruit_update at 1 3. cbn [fruit_vy fruit_y].
    rewrite Hv, Hy, Nat2Z.inj_succ, <- Z.add_1_r, inject_Z_plus.
    change (inject_Z 1) with 1%Q. split; field.
Qed.

(** ** Lifetimes *)

Lemma particle_iter_life (k : nat) (p : Particle) :
  p_life (Nat.iter k particle_update p) = p_life p - Z.of_nat k.
Proof. induction k as [| k IH]; simpl; [lia | rewrite IH; lia]. Qed.

Lemma sliced_iter_life (k : nat) (h : SlicedFruit) :
  sf_life (Nat.iter k sliced_update h) = sf_life h - Z.of_nat k.
Proof. induction k as [| k IH]; simpl; [lia | rewrite IH; lia]. Qed.

Lemma splash_iter_life (k : nat) (sp : Splash) :
  splash_life (Nat.iter k splash_update sp) = splash_life sp - Z.of_nat k.
Proof. induction k as [| k IH]; simpl; [lia | rewrite IH; lia]. Qed.

(** Every particle created by [Particle.__init__] is alive for exactly its
    first 29 updates: [Particle.is_alive] holds after [k] updates iff
    [k < 30]. *)
Theorem particle_lifetime (x y : Q) (c : Color) (s : FruitNinja) (k : nat) :
  particle_is_alive (Nat.iter k particle_update (fst (Particle_new x y c s))) =
  (Z.of_nat k <? 30).
Proof.
  unfold particle_is_alive. rewrite particle_iter_life, (Particle_new_life x y c s).
  destruct (Z.ltb_spec 0 (30 - Z.of_nat k)), (Z.ltb_spec (Z.of_nat k) 30); lia.
Qed.

(** Every pair of halves created by [SlicedFruit.__init__] is alive for
    exactly its first 59 updates. *)
Theorem sliced_fruit_lifetime (x y : Q) (t : string) (s : FruitNinja) (k : nat) :
  sliced_is_alive (Nat.iter k sliced_update (fst (SlicedFruit_new x y t s))) =
  (Z.of_nat k <? 60).
Proof.
  unfold sliced_is_alive. rewrite sliced_iter_life, (SlicedFruit_new_life x y t s).
  destruct (Z.ltb_spec 0 (60 - Z.of_nat k)), (Z.ltb_spec (Z.of_nat k) 60); lia.
Qed.

(** A [Splash] is alive for exactly its first 179 updates (three seconds
    at 60 updates per second). *)
Theorem splash_lifetime (x y : Q) (c : Color) (k : nat) :
  splash_is_alive (Nat.iter k splash_update (Splash_new x y c)) = (Z.of_nat k <? 180).
Proof.
  unfold splash_is_alive. rewrite splash_iter_life. cbn [splash_life Splash_new].
  destruct (Z.ltb_spec 0 (180 - Z.of_nat k)), (Z.ltb_spec (Z.of_nat k) 180); lia.
Qed.

(** ** [brighten_color] *)

(** On a channel value in [0, 255], [brighten_color] stays in range, never
    darkens, and strictly brightens every channel that is not already
    saturated. *)
Theorem brighten_channel_range (c : Z) :
  0 <= c <= 255 ->
  c <= brighten_channel c <= 255 /\ (c < 255 -> c < brighten_channel c).
Proof.
  intro H. unfold brighten_channel, py_int. cbn [Qnum Qden Qmult Qplus inject_Z].
  rewrite Z.quot_div_nonneg by lia.
  change (Z.pos (1 * 4)) with 4. change (Z.pos (1 * 4 * 1)) with 4.
  assert (E : c * 5 * 1 + 20 * 4 = c + (c + 20) * 4) by lia.
  rewrite E.
  rewrite Z.div_add by lia.
  pose proof (Z.div_pos c 4) as P. lia.
Qed.

Lemma brighten_channel_range_witness :
  0 <= 100 <= 255 /\ 100 <= brighten_channel 100 <= 255 /\ (100 < 255 -> 100 < brighten_channel 100).
Proof. split; [lia | apply brighten_channel_range; lia]. Defined.

(** ** Relational frame: every step of a computation is related to its start *)

Section Steps.

Context {R : FruitNinja -> FruitNinja -> Prop} `{PreOrder FruitNinja R}.

Definition steps {A : Type} (m : M A) : Prop := forall s, R s (snd (m s)).

Lemma steps_ret {A : Type} (a : A) : steps (ret a).
Proof. intro s. reflexivity. Qed.

Lemma steps_gets {A : Type} (f : FruitNinja -> A) : steps (gets f).
Proof. intro s. reflexivity. Qed.

Lemma steps_modify (f : FruitNinja -> FruitNinja) : (forall s, R s (f s)) -> steps (modify f).
Proof. intros Hf s. apply Hf. Qed.

Lemma steps_bind {A B : Type} (m : M A) (k : A -> M B) :
  steps m -> (forall a, steps (k a)) -> steps (bind m k).
Proof.
  intros Hm Hk s. unfold bind. specialize (Hm s).
  destruct (m s) as [a s']. simpl in Hm. etransitivity; [exact Hm | apply Hk].
Qed.

Lemma steps_when (b : bool) (m : M unit) : steps m -> steps (when b m).
Proof. intros Hm. destruct b; [exact Hm | apply steps_ret]. Qed.

Lemma steps_for {A : Type} (l : list A) (body : A -> M unit) :
  (forall x, steps (body x)) -> steps (for_ l body).
Proof.
  intros Hb. induction l as [| x l IH]; simpl.
  - apply steps_ret.
  - apply steps_bind; [apply Hb | intros _; exact IH].
Qed.

Lemma steps_rand_unit : (forall us s, R s (set_rnd us s)) -> steps rand_unit.
Proof. intros Hr s. unfold rand_unit. destruct (rnd s); [reflexivity | apply Hr]. Qed.

Lemma steps_of_preserves {V A : Type} (g : FruitNinja -> V) (m : M A) :
  (forall s s', g s' = g s -> R s s') -> preserves g m -> steps m.
Proof. intros Hg Hm s. apply Hg, Hm. Qed.

Lemma steps_handle_events (evs : list Event) :
  (forall e, steps (handle_event e)) -> steps (handle_events evs).
Proof.
  intros He. induction evs as [| e evs IH]; simpl.
  - apply steps_ret.
  - apply steps_bind; [apply He | intros [|]; [apply steps_ret | exact IH]].
Qed.

Lemma steps_run (batches : list (list Event)) :
  (forall evs, steps (handle_events evs)) -> steps update -> steps draw_effects ->
  steps (run batches).
Proof.
  intros Hh Hu Hd. induction batches as [| evs batches IH]; simpl.
  - apply steps_ret.
  - apply steps_bind; [apply steps_gets | intros [|]; [| apply steps_ret]].
    apply steps_bind; [| intros _; exact IH].
    unfold run_step. apply steps_bind; [apply Hh | intros _].
    apply steps_bind; [exact Hu | intros _; exact Hd].
Qed.

End Steps.

Ltac steps_step :=
  match goal with
  | |- steps (bind _ _) => apply steps_bind; [ | intro ]
  | |- steps (ret _) => apply steps_ret
  | |- steps (gets _) => apply steps_gets
  | |- steps rand_unit => apply steps_rand_unit; intros
  | |- steps (modify _) => apply steps_modify; intro
  | |- steps (when _ _) => apply steps_when
  | |- steps (for_ _ _) => apply steps_for; intro
  | |- steps (if ?b then _ else _) => destruct b
  | |- steps (match ?x with _ => _ end) => destruct x
  end.

(** [P] holds after a step whenever it held before. *)
Definition keeps (P : FruitNinja -> Prop) (s s' : FruitNinja) : Prop := P s -> P s'.

#[export] Instance keeps_preorder (P : FruitNinja -> Prop) : PreOrder (keeps P).
Proof. split; [intros s Hs; exact Hs | intros a b c Hab Hbc Ha; exact (Hbc (Hab Ha))]. Qed.

(** The best score did not decrease. *)
Definition best_le (s s' : FruitNinja) : Prop := best_score s <= best_score s'.

#[export] Instance best_le_preorder : PreOrder best_le.
Proof. split; [intro s; apply Z.le_refl | intros a b c; apply Z.le_trans]. Qed.

Lemma update_preserves_best : preserves best_score update.
Proof. frame. Qed.

Lemma draw_effects_preserves_best : preserves best_score draw_effects.
Proof. frame. Qed.

Lemma slice_fruit_steps_best (f : Fruit) : steps (R := best_le) (slice_fruit f).
Proof.
  intro s. destruct (slice_fruit_exec f s) as (_ & _ & _ & Hb & _).
  unfold best_le. unfold exec in Hb. rewrite Hb. lia.
Qed.

Lemma handle_event_steps_best (e : Event) : steps (R := best_le) (handle_event e).
Proof.
  destruct e; unfold handle_event;
  repeat (unfold motion_slices, start_bomb_flash;
          first [steps_step | apply slice_fruit_steps_best]);
  apply Z.le_refl.
Qed.

(** The best score never decreases over any run of the main loop, whatever
    the input: slices raise it to the score when the score passes it, and
    [reset_game], the tick and the game-over screen leave it alone. *)
Theorem best_score_monotone (batches : list (list Event)) (s : FruitNinja) :
  best_score s <= best_score (exec (run batches) s).
Proof.
  apply (steps_run (R := best_le)).
  - intro evs. apply steps_handle_events, handle_event_steps_best.
  - apply (steps_of_preserves best_score); [intros a b E; unfold best_le; lia |].
    apply update_preserves_best.
  - apply (steps_of_preserves best_score); [intros a b E; unfold best_le; lia |].
    apply draw_effects_preserves_best.
Qed.

(** ** The score stays between 0 and the best score *)

Definition score_inv (s : FruitNinja) : Prop := 0 <= score s <= best_score s.

Definition score_view (s : FruitNinja) : Z * Z := (score s, best_score s).

Lemma update_preserves_score : preserves score_view update.
Proof. frame. Qed.

Lemma draw_effects_preserves_score : preserves score_view draw_effects.
Proof. frame. Qed.

Lemma score_view_keeps (a b : FruitNinja) : score_view b = score_view a -> keeps score_inv a b.
Proof. unfold score_view, keeps, score_inv. intro E. injection E as E1 E2. lia. Qed.

Lemma slice_fruit_keeps_score (f : Fruit) : steps (R := keeps score_inv) (slice_fruit f).
Proof.
  intro s. destruct (slice_fruit_exec f s) as (_ & _ & Hs & Hb & _).
  unfold keeps, score_inv. unfold exec in Hs, Hb. rewrite Hs, Hb.
  unfold slice_points. lia.
Qed.

Lemma handle_event_keeps_score (e : Event) : steps (R := keeps score_inv) (handle_event e).
Proof.
  destruct e; unfold handle_event;
  repeat (unfold motion_slices, start_bomb_flash;
          first [steps_step | apply slice_fruit_keeps_score]);
  unfold keeps, score_inv; cbn; lia.
Qed.

(** Over any run of the main loop, a score between 0 and the best score
    stays between 0 and the best score: every slice adds at least 2 points
    and lifts the best score to the new score when it passes it, and the
    restart sets the score to 0 without touching the best score. *)
Theorem score_within_best (batches : list (list Event)) (s : FruitNinja) :
  0 <= score s <= best_score s ->
  0 <= score (exec (run batches) s) <= best_score (exec (run batches) s).
Proof.
  apply (steps_run (R := keeps score_inv)).
  - intro evs. apply steps_handle_events, handle_event_keeps_score.
  - apply (steps_of_preserves score_view); [apply score_view_keeps | apply update_preserves_score].
  - apply (steps_of_preserves score_view);
      [apply score_view_keeps | apply draw_effects_preserves_score].
Qed.

Definition slicing_run : list (list Event) :=
  [[MOUSEBUTTONDOWN 1 (0, 0)%Q; MOUSEMOTION (100, 0)%Q]; []; [KEYDOWN K_SPACE]].

Lemma score_within_best_witness :
  let s := set_swiping true (set_swipe_path [(0, 0)%Q]
             (set_fruits [test_fruit 80 0 0] (play_state "Orta"))) in
  (0 <= score s <= best_score s) /\
  0 <= score (exec (run slicing_run) s) <= best_score (exec (run slicing_run) s).
Proof.
  cbv zeta.
  match goal with |- ?A /\ _ => assert (H0 : A) by (vm_compute; split; discriminate) end.
  split; [exact H0 | exact (score_within_best _ _ H0)].
Defined.

(** ** The swipe path is empty while no swipe is in progress *)

Definition swipe_inv (s : FruitNinja) : Prop := swiping s = false -> swipe_path s = [].

Definition swipe_view (s : FruitNinja) : bool * list (Q * Q) := (swiping s, swipe_path s).

Lemma swipe_view_keeps (a b : FruitNinja) : swipe_view b = swipe_view a -> keeps swipe_inv a b.
Proof.
  unfold swipe_view, keeps, swipe_inv. intro E. injection E as E1 E2.
  rewrite E1, E2. tauto.
Qed.

Lemma motion_preserves_swiping (pos : Q * Q) : preserves swiping (handle_event (MOUSEMOTION pos)).
Proof.
  unfold handle_event, motion_slices, slice_fruit, slice_fruit_effects, slice_fruit_score.
  frame.
Qed.

Lemma update_preserves_swipe : preserves swipe_view update.
Proof. frame. Qed.

Lemma draw_effects_preserves_swipe : preserves swipe_view draw_effects.
Proof. frame. Qed.

Lemma handle_event_keeps_swipe (e : Event) : steps (R := keeps swipe_inv) (handle_event e).
Proof.
  destruct e as [| button pos | button | pos | key |]; intro s; unfold keeps, swipe_inv.
  - cbn. tauto.
  - unfold handle_event, when, bind, modify, ret.
    destruct (button =? 1); cbn; [intros _ H; discriminate | tauto].
  - unfold handle_event, when, bind, modify, ret.
    destruct (button =? 1); cbn; [intros _ _; reflexivity | tauto].
  - intros H Hsw. destruct (swiping s) eqn:Hs.
    + rewrite (motion_preserves_swiping pos s), Hs in Hsw. discriminate.
    + unfold handle_event, bind, gets. rewrite Hs. cbn. apply H. reflexivity.
  - unfold handle_event, when, bind, gets, modify, ret.
    destruct (game_over s && (key =? K_SPACE)); cbn; [intros _ _; reflexivity | tauto].
  - cbn. tauto.
Qed.

(** Over any run of the main loop, the swipe path is empty whenever no
    swipe is in progress: pressing the left button starts a new one-point
    path, releasing it clears the path, pointer motion only extends the
    path while a swipe is in progress, and the restart clears it. *)
Theorem swipe_path_cleared (batches : list (list Event)) (s : FruitNinja) :
  (swiping s = false -> swipe_path s = []) ->
  swiping (exec (run batches) s) = false -> swipe_path (exec (run batches) s) = [].
Proof.
  apply (steps_run (R := keeps swipe_inv)).
  - intro evs. apply steps_handle_events, handle_event_keeps_swipe.
  - apply (steps_of_preserves swipe_view); [apply swipe_view_keeps | apply update_preserves_swipe].
  - apply (steps_of_preserves swipe_view);
      [apply swipe_view_keeps | apply draw_effects_preserves_swipe].
Qed.

Definition swipe_and_release : list (list Event) :=
  [[MOUSEBUTTONDOWN 1 (0, 0)%Q; MOUSEMOTION (10, 10)%Q]; [MOUSEBUTTONUP 1]].

Lemma swipe_path_cleared_witness :
  (swiping (play_state "Orta") = false -> swipe_path (play_state "Orta") = []) /\
  swiping (exec (run swipe_and_release) (play_state "Orta")) = false /\
  swipe_path (exec (run swipe_and_release) (play_state "Orta")) = [].
Proof.
  assert (H0 : swiping (play_state "Orta") = false -> swipe_path (play_state "Orta") = [])
    by (intros _; vm_compute; reflexivity).
  assert (H1 : swiping (exec (run swipe_and_release) (play_state "Orta")) = false)
    by (vm_compute; reflexivity).
  split; [exact H0 | split; [exact H1 | exact (swipe_path_cleared _ _ H0 H1)]].
Defined.

(** ** The three branches of [update] *)

(** The bomb flash branch of [update]. *)
Definition update_flash : M unit :=
  modify (fun s => set_bomb_flash_timer (bomb_flash_timer s + 1) s) ;;
  modify (fun s =>
    if Qleb (bomb_flash_duration s) (inject_Z (bomb_flash_timer s))
    then set_bomb_flash_active false s else s).

(** The part of the play branch of [update] after the two spawners. *)
Definition update_entities : M unit :=
  modify (fun s => set_fruits (map fruit_update (fruits s)) s) ;;
  fs <- gets fruits ;;
  let fruits_to_remove := filter fruit_is_missed fs in
  modify (set_fruits (filter (fun f => negb (fruit_is_missed f)) fs)) ;;
  for_ fruits_to_remove (fun _ => lose_life) ;;
  modify (fun s => set_bombs (map bomb_update (bombs s)) s) ;;
  modify (fun s => set_sliced_fruits (map sliced_update (sliced_fruits s)) s) ;;
  modify (fun s => set_sliced_fruits (filter sliced_is_alive (sliced_fruits s)) s) ;;
  modify (fun s => set_particles (map particle_update (particles s)) s) ;;
  modify (fun s => set_particles (filter particle_is_alive (particles s)) s).

Lemma update_split (s : FruitNinja) :
  exec update s =
  if show_title_screen s then s
  else if game_over s && bomb_flash_active s then exec update_flash s
  else exec (tick_fruit_spawner ;; tick_bomb_spawner ;; update_entities) s.
Proof.
  unfold exec, update. cbv beta delta [bind gets] iota zeta.
  destruct (show_title_screen s); [reflexivity |].
  destruct (game_over s && bomb_flash_active s); reflexivity.
Qed.

Lemma exec_gets {A B : Type} (f : FruitNinja -> A) (k : A -> M B) (s : FruitNinja) :
  exec (x <- gets f ;; k x) s = exec (k (f s)) s.
Proof. reflexivity. Qed.

Lemma exec_modify (f : FruitNinja -> FruitNinja) (s : FruitNinja) : exec (modify f) s = f s.
Proof. reflexivity. Qed.

(** [len] lost lives in a row. *)
Lemma lose_lives_exec {A : Type} (l : list A) (s : FruitNinja) :
  let n := Z.of_nat (List.length l) in
  lives (exec (for_ l (fun _ => lose_life)) s) = lives s - n /\
  game_over (exec (for_ l (fun _ => lose_life)) s) =
  game_over s || ((0 <? n) && (lives s - n <=? 0)).
Proof.
  cbv zeta. revert s. induction l as [| x l IH]; intro s.
  - cbn. rewrite orb_false_r. split; [lia | reflexivity].
  - cbn [for_ List.length]. rewrite exec_seq.
    destruct (IH (exec lose_life s)) as [Hl Hg]. rewrite Hl, Hg.
    assert (E1 : lives (exec lose_life s) = lives s - 1).
    { unfold exec, lose_life, bind, modify. cbn.
      destruct (lives s - 1 <=? 0), (game_over s) eqn:G; cbn; rewrite ?G; reflexivity. }
    assert (E2 : game_over (exec lose_life s) = game_over s || (lives s - 1 <=? 0)).
    { unfold exec, lose_life, bind, modify. cbn.
      destruct (lives s - 1 <=? 0), (game_over s) eqn:G; cbn; rewrite ?G; reflexivity. }
    rewrite E1, E2. rewrite Nat2Z.inj_succ. split; [lia |].
    rewrite <- orb_assoc. f_equal.
    destruct (Z.leb_spec (lives s - 1) 0), (Z.ltb_spec 0 (Z.of_nat (List.length l))),
             (Z.leb_spec (lives s - 1 - Z.of_nat (List.length l)) 0),
             (Z.ltb_spec 0 (Z.succ (Z.of_nat (List.length l)))),
             (Z.leb_spec (lives s - Z.succ (Z.of_nat (List.length l))) 0); cbn; lia.
Qed.

Definition entity_view (s : FruitNinja) :=
  (fruits s, bombs s, sliced_fruits s, particles s, game_mode s).

Lemma lose_lives_preserves_entities {A : Type} (l : list A) :
  preserves entity_view (for_ l (fun _ => lose_life)).
Proof. frame. Qed.

Lemma update_entities_exec (s : FruitNinja) :
  let s' := exec update_entities s in
  let missed := filter fruit_is_missed (map fruit_update (fruits s)) in
  let n := Z.of_nat (List.length missed) in
  fruits s' = filter (fun f => negb (fruit_is_missed f)) (map fruit_update (fruits s)) /\
  bombs s' = map bomb_update (bombs s) /\
  sliced_fruits s' = filter sliced_is_alive (map sliced_update (sliced_fruits s)) /\
  particles s' = filter particle_is_alive (map particle_update (particles s)) /\
  game_mode s' = game_mode s /\
  lives s' = lives s - n /\
  game_over s' = game_over s || ((0 <? n) && (lives s - n <=? 0)).
Proof.
  cbv zeta. unfold update_entities.
  rewrite exec_seq, exec_gets, exec_seq, exec_seq, !exec_seq, !exec_modify.
  set (s1 := set_fruits _ (set_fruits _ s)).
  pose proof (lose_lives_exec (filter fruit_is_missed (map fruit_update (fruits s))) s1) as [Hl Hg].
  pose proof (lose_lives_preserves_entities (filter fruit_is_missed (map fruit_update (fruits s))) s1)
    as He.
  fold (exec (for_ (filter fruit_is_missed (map fruit_update (fruits s))) (fun _ => lose_life)) s1)
    in He.
  set (s2 := exec (for_ _ (fun _ => lose_life)) s1) in *.
  unfold entity_view in He. injection He as Ef Eb Esl Ep Em.
  cbn. rewrite Ef, Eb, Esl, Ep, Em, Hl, Hg. subst s1. cbn.
  repeat split; reflexivity.
Qed.

Definition spawner_view (s : FruitNinja) :=
  (lives s, game_over s, sliced_fruits s, particles s, show_title_screen s).

Lemma spawners_preserve (s : FruitNinja) :
  spawner_view (exec (tick_fruit_spawner ;; tick_bomb_spawner) s) = spawner_view s.
Proof. apply (preserves_bind spawner_view); intros; frame. Qed.

(** After a tick of play, [self.fruits] holds no fruit that
    [Fruit.is_missed] would report, and every split fruit and particle
    left is alive: the ones that expired on this tick are gone. *)
Theorem update_removes_finished (s : FruitNinja) :
  show_title_screen s = false -> game_over s && bomb_flash_active s = false ->
  let s' := exec update s in
  Forall (fun f => fruit_is_missed f = false) (fruits s') /\
  Forall (fun h => sliced_is_alive h = true) (sliced_fruits s') /\
  Forall (fun p => particle_is_alive p = true) (particles s').
Proof.
  intros Ht Hf. cbv zeta. rewrite update_split, Ht, Hf, !exec_seq.
  destruct (update_entities_exec (exec tick_bomb_spawner (exec tick_fruit_spawner s)))
    as (Hfr & _ & Hsl & Hp & _).
  rewrite Hfr, Hsl, Hp. repeat split; apply Forall_forall; intros x Hx;
  apply filter_In in Hx; destruct Hx as [_ Hx]; [apply negb_true_iff |..]; exact Hx.
Qed.

Lemma update_removes_finished_witness :
  show_title_screen two_misses_state = false /\
  game_over two_misses_state && bomb_flash_active two_misses_state = false /\
  (let s' := exec update two_misses_state in
   Forall (fun f => fruit_is_missed f = false) (fruits s') /\
   Forall (fun h => sliced_is_alive h = true) (sliced_fruits s') /\
   Forall (fun p => particle_is_alive p = true) (particles s')).
Proof.
  assert (H1 : show_title_screen two_misses_state = false) by reflexivity.
  assert (H2 : game_over two_misses_state && bomb_flash_active two_misses_state = false)
    by reflexivity.
  split; [exact H1 | split; [exact H2 | exact (update_removes_finished _ H1 H2)]].
Defined.

(** On a tick of play, [lives] drops by exactly the number of fruits that
    leave the field on this tick (the ones that [Fruit.is_missed] reports
    after the move, including a fruit spawned on this tick), and
    [game_over] is set iff at least one fruit was missed and [lives] ended
    at 0 or below; nothing clamps [lives] at 0. *)
Theorem update_lives (s : FruitNinja) :
  show_title_screen s = false -> game_over s && bomb_flash_active s = false ->
  let s1 := exec tick_bomb_spawner (exec tick_fruit_spawner s) in
  let n := Z.of_nat (List.length (filter fruit_is_missed (map fruit_update (fruits s1)))) in
  lives (exec update s) = lives s - n /\
  game_over (exec update s) = game_over s || ((0 <? n) && (lives s - n <=? 0)).
Proof.
  intros Ht Hf. cbv zeta. rewrite update_split, Ht, Hf, !exec_seq.
  pose proof (spawners_preserve s) as Hv. rewrite exec_seq in Hv.
  unfold spawner_view in Hv. injection Hv as El Eg _ _ _.
  destruct (update_entities_exec (exec tick_bomb_spawner (exec tick_fruit_spawner s)))
    as (_ & _ & _ & _ & _ & Hl & Hg).
  rewrite Hl, Hg, El, Eg. split; reflexivity.
Qed.

Lemma update_lives_witness :
  show_title_screen two_misses_state = false /\
  game_over two_misses_state && bomb_flash_active two_misses_state = false /\
  (let s1 := exec tick_bomb_spawner (exec tick_fruit_spawner two_misses_state) in
   let n := Z.of_nat (List.length (filter fruit_is_missed (map fruit_update (fruits s1)))) in
   lives (exec update two_misses_state) = lives two_misses_state - n /\
   game_over (exec update two_misses_state) =
   game_over two_misses_state || ((0 <? n) && (lives two_misses_state - n <=? 0))).
Proof.
  assert (H1 : show_title_screen two_misses_state = false) by reflexivity.
  assert (H2 : game_over two_misses_state && bomb_flash_active two_misses_state = false)
    by reflexivity.
  split; [exact H1 | split; [exact H2 | exact (update_lives _ H1 H2)]].
Defined.

(** ** What one slice leaves behind *)

Lemma exec_for_iter {A V : Type} (g : FruitNinja -> V) (F : V -> V) (l : list A)
    (body : A -> M unit) :
  (forall x s, g (exec (body x) s) = F (g s)) ->
  forall s, g (exec (for_ l body) s) = Nat.iter (List.length l) F (g s).
Proof.
  intro H. induction l as [| x l IH]; intro s; [reflexivity |].
  cbn [for_ List.length]. rewrite exec_seq, IH, H, Nat.iter_succ_r. reflexivity.
Qed.

Lemma exec_bind_preserves {A B V : Type} (g : FruitNinja -> V) (F : V -> V) (m : M A)
    (k : A -> M B) :
  preserves g m -> (forall a s, g (exec (k a) s) = F (g s)) ->
  forall s, g (exec (bind m k) s) = F (g s).
Proof.
  intros Hm Hk s. unfold exec, bind. specialize (Hm s).
  destruct (m s) as [a s']. cbn in Hm |- *. fold (exec (k a) s'). rewrite Hk, Hm. reflexivity.
Qed.

(** The numbers of particles and of split fruits on screen. *)
Definition effect_count (s : FruitNinja) : nat * nat :=
  (List.length (particles s), List.length (sliced_fruits s)).

Lemma particle_push_count (x y : Q) (c : Color) (s : FruitNinja) :
  effect_count (exec (p <- Particle_new x y c ;; push_particle p) s) =
  (S (fst (effect_count s)), snd (effect_count s)).
Proof.
  apply (exec_bind_preserves effect_count (fun v => (S (fst v), snd v))); [frame |].
  intros p t. unfold exec, push_particle, modify, effect_count. cbn.
  rewrite length_app. cbn. rewrite Nat.add_1_r. reflexivity.
Qed.

Lemma slice_fruit_score_count (s : FruitNinja) :
  effect_count (exec slice_fruit_score s) = effect_count s.
Proof.
  assert (H : preserves effect_count slice_fruit_score) by (unfold slice_fruit_score; frame).
  apply H.
Qed.

(** Slicing a fruit adds exactly seven particles (five in its color and two
    yellow fragments) and one pair of halves iff the fruit has a cut image. *)
Theorem slice_fruit_counts (f : Fruit) (s : FruitNinja) :
  List.length (particles (exec (slice_fruit f) s)) = (List.length (particles s) + 7)%nat /\
  List.length (sliced_fruits (exec (slice_fruit f) s)) =
  (List.length (sliced_fruits s) + if fruit_has_cut f then 1 else 0)%nat.
Proof.
  enough (E : effect_count (exec (slice_fruit f) s) =
              (List.length (particles s) + 7,
               List.length (sliced_fruits s) + if fruit_has_cut f then 1 else 0)%nat)
    by (unfold effect_count in E; injection E as E1 E2; split; assumption).
  unfold slice_fruit. rewrite exec_seq, slice_fruit_score_count.
  unfold slice_fruit_effects. rewrite !exec_seq.
  rewrite (exec_for_iter effect_count (fun v => (fst v + 2, snd v)%nat) (repeat tt 1)).
  2: { intros _ t.
       apply (exec_bind_preserves effect_count (fun v => (fst v + 2, snd v)%nat)); [frame |].
       intros dx t1.
       apply (exec_bind_preserves effect_count (fun v => (fst v + 2, snd v)%nat)); [frame |].
       intros dy t2.
       rewrite (exec_for_iter effect_count (fun v => (S (fst v), snd v)) (repeat tt 2)).
       - cbn. f_equal. lia.
       - intros _ t3. apply particle_push_count. }
  rewrite (exec_for_iter effect_count (fun v => (S (fst v), snd v)) (repeat tt 5)).
  2: { intros _ t. apply particle_push_count. }
  destruct (fruit_has_cut f); cbn [when].
  - rewrite (exec_bind_preserves effect_count (fun v => (fst v, S (snd v)))); [| frame |].
    + cbn. unfold effect_count. f_equal; lia.
    + intros h t. unfold exec, modify, effect_count. cbn.
      rewrite length_app. cbn. rewrite Nat.add_1_r. reflexivity.
  - cbn. unfold effect_count. f_equal; lia.
Qed.

(** ** A pointer sample that slices fruits *)

Lemma motion_exec_fruits (s : FruitNinja) (pos : Q * Q) :
  swiping s = true -> show_title_screen s = false -> game_over s = false ->
  find (check_bomb_slice (swipe_path s ++ [pos])) (bombs s) = None ->
  exec (handle_event (MOUSEMOTION pos)) s =
  exec (for_ (filter (check_slice (swipe_path s ++ [pos])) (fruits s)) slice_fruit ;;
        modify (fun t => set_fruits (filter (fun f => negb (check_slice (swipe_path s ++ [pos]) f))
                                            (fruits t)) t))
       (set_swipe_path (swipe_path s ++ [pos]) s).
Proof.
  intros Hsw Ht Hgo Hfind.
  unfold exec, handle_event, bind, gets, when, modify, ret.
  rewrite Hsw. cbn -[check_bomb_slice check_title_slice check_slice for_ slice_fruit].
  rewrite Ht. cbn -[check_bomb_slice check_slice for_ slice_fruit].
  rewrite Hgo, Ht. cbn -[check_bomb_slice check_slice for_ slice_fruit].
  unfold motion_slices, bind, gets. cbn -[check_bomb_slice check_slice for_ slice_fruit].
  rewrite Hfind. cbn -[check_slice for_ slice_fruit].
  destruct (for_ _ slice_fruit _) as [u t]. reflexivity.
Qed.

Definition motion_view (s : FruitNinja) :=
  (fruits s, lives s, game_over s, swipe_path s, swiping s).

Lemma slices_preserve_motion_view (l : list Fruit) : preserves motion_view (for_ l slice_fruit).
Proof. unfold slice_fruit, slice_fruit_effects, slice_fruit_score. frame. Qed.

Lemma iter_add_Z (n : nat) (d c : Z) :
  Nat.iter n (fun x => x + d) c = c + Z.of_nat n * d.
Proof. induction n as [| n IH]; [cbn; lia | rewrite Nat.iter_succ, IH; nia]. Qed.

Lemma iter_add_nat (n d c : nat) : Nat.iter n (fun x => x + d)%nat c = (c + n * d)%nat.
Proof. induction n as [| n IH]; [cbn; lia | rewrite Nat.iter_succ, IH; nia]. Qed.

(** When a pointer sample during play reaches no bomb, every fruit the
    extended swipe path reaches is sliced and removed, and no other:
    [combo] grows by the number [n] of fruits reached, seven particles are
    added per fruit, and neither [lives] nor [game_over] changes. *)
Theorem motion_slices_fruits (s : FruitNinja) (pos : Q * Q) :
  swiping s = true -> show_title_screen s = false -> game_over s = false ->
  find (check_bomb_slice (swipe_path s ++ [pos])) (bombs s) = None ->
  let path := swipe_path s ++ [pos] in
  let n := List.length (filter (check_slice path) (fruits s)) in
  let s' := exec (handle_event (MOUSEMOTION pos)) s in
  fruits s' = filter (fun f => negb (check_slice path f)) (fruits s) /\
  combo s' = combo s + Z.of_nat n /\
  List.length (particles s') = (List.length (particles s) + 7 * n)%nat /\
  lives s' = lives s /\ game_over s' = false /\ swipe_path s' = path.
Proof.
  intros Hsw Ht Hgo Hfind. cbv zeta.
  rewrite (motion_exec_fruits s pos Hsw Ht Hgo Hfind), exec_seq, exec_modify.
  set (path := swipe_path s ++ [pos]).
  set (hits := filter (check_slice path) (fruits s)).
  set (s0 := set_swipe_path path s).
  pose proof (slices_preserve_motion_view hits s0) as Hv.
  fold (exec (for_ hits slice_fruit) s0) in Hv.
  unfold motion_view in Hv. injection Hv as Ef El Eg Ep _.
  assert (Hc : forall t, combo (exec (for_ hits slice_fruit) t) =
                         combo t + Z.of_nat (List.length hits) * 1).
  { intro t. rewrite <- iter_add_Z. apply exec_for_iter. intros f u. apply slice_fruit_exec. }
  assert (Hp : forall t, List.length (particles (exec (for_ hits slice_fruit) t)) =
                         (List.length (particles t) + List.length hits * 7)%nat).
  { intro t. rewrite <- iter_add_nat.
    apply (exec_for_iter (fun u => List.length (particles u))).
    intros f u. apply slice_fruit_counts. }
  cbn [fruits combo particles lives game_over swipe_path set_fruits].
  rewrite Ef, El, Eg, Ep, Hc, Hp.
  subst s0. cbn. repeat split; [lia | lia | exact Hgo].
Qed.

Definition one_fruit_swipe_state : FruitNinja :=
  set_swipe_path [(0, 0)%Q] (set_swiping true (set_fruits [test_fruit 80 0 0] (play_state "Orta"))).

Lemma motion_slices_fruits_witness :
  swiping one_fruit_swipe_state = true /\ show_title_screen one_fruit_swipe_state = false /\
  game_over one_fruit_swipe_state = false /\
  find (check_bomb_slice (swipe_path one_fruit_swipe_state ++ [(100, 0)%Q]))
       (bombs one_fruit_swipe_state) = None /\
  (let path := swipe_path one_fruit_swipe_state ++ [(100, 0)%Q] in
   let n := List.length (filter (check_slice path) (fruits one_fruit_swipe_state)) in
   let s' := exec (handle_event (MOUSEMOTION (100, 0)%Q)) one_fruit_swipe_state in
   fruits s' = filter (fun f => negb (check_slice path f)) (fruits one_fruit_swipe_state) /\
   combo s' = combo one_fruit_swipe_state + Z.of_nat n /\
   List.length (particles s') = (List.length (particles one_fruit_swipe_state) + 7 * n)%nat /\
   lives s' = lives one_fruit_swipe_state /\ game_over s' = false /\ swipe_path s' = path).
Proof.
  assert (H1 : swiping one_fruit_swipe_state = true) by reflexivity.
  assert (H2 : show_title_screen one_fruit_swipe_state = false) by reflexivity.
  assert (H3 : game_over one_fruit_swipe_state = false) by reflexivity.
  assert (H4 : find (check_bomb_slice (swipe_path one_fruit_swipe_state ++ [(100, 0)%Q]))
                    (bombs one_fruit_swipe_state) = None) by reflexivity.
  split; [exact H1 | split; [exact H2 | split; [exact H3 | split; [exact H4 |]]]].
  exact (motion_slices_fruits _ _ H1 H2 H3 H4).
Defined.

(** ** No bomb ever enters an easy (Kolay) game *)

Definition kolay_inv (s : FruitNinja) : Prop := game_mode s = "Kolay"%string /\ bombs s = [].

Definition mode_bombs (s : FruitNinja) : string * list Bomb := (game_mode s, bombs s).

Lemma mode_bombs_keeps (a b : FruitNinja) : mode_bombs b = mode_bombs a -> keeps kolay_inv a b.
Proof. unfold mode_bombs, keeps, kolay_inv. intro E. injection E as E1 E2. rewrite E1, E2. tauto. Qed.

Lemma slice_fruit_preserves_mode_bombs (f : Fruit) : preserves mode_bombs (slice_fruit f).
Proof. unfold slice_fruit, slice_fruit_effects, slice_fruit_score. frame. Qed.

Lemma tick_bomb_spawner_kolay (s : FruitNinja) :
  game_mode s = "Kolay"%string -> exec tick_bomb_spawner s = s.
Proof. intro H. unfold exec, tick_bomb_spawner, bind, gets. rewrite H. reflexivity. Qed.

Lemma handle_event_keeps_kolay (e : Event) : steps (R := keeps kolay_inv) (handle_event e).
Proof.
  destruct e; unfold handle_event;
  repeat (unfold motion_slices, start_bomb_flash;
          first [steps_step
                | apply (steps_of_preserves mode_bombs);
                  [apply mode_bombs_keeps | apply slice_fruit_preserves_mode_bombs]]);
  unfold keeps, kolay_inv; cbn; intros [H1 H2]; split; first [assumption | reflexivity].
Qed.

Lemma update_keeps_kolay : steps (R := keeps kolay_inv) update.
Proof.
  intros s [Hm Hb]. change (snd (update s)) with (exec update s).
  rewrite update_split. destruct (show_title_screen s); [split; assumption |].
  destruct (game_over s && bomb_flash_active s).
  - assert (H : preserves mode_bombs update_flash) by (unfold update_flash; frame).
    apply (mode_bombs_keeps _ _ (H s)). split; assumption.
  - rewrite !exec_seq.
    assert (H : preserves mode_bombs tick_fruit_spawner) by frame.
    pose proof (H s) as E. fold (exec tick_fruit_spawner s) in E.
    unfold mode_bombs in E. injection E as E1 E2.
    rewrite tick_bomb_spawner_kolay by (rewrite E1; exact Hm).
    destruct (update_entities_exec (exec tick_fruit_spawner s)) as (_ & Eb & _ & _ & Em & _).
    unfold kolay_inv. rewrite Eb, Em, E1, E2, Hb. split; [exact Hm | reflexivity].
Qed.

(** In the easy mode (Kolay) the bomb spawner is skipped, and nothing else
    adds bombs: a game in mode Kolay without bombs never has a bomb, over
    any run of the main loop and whatever the input. *)
Theorem kolay_never_spawns_bombs (batches : list (list Event)) (s : FruitNinja) :
  game_mode s = "Kolay"%string -> bombs s = [] -> bombs (exec (run batches) s) = [].
Proof.
  intros Hm Hb.
  enough (H : kolay_inv (exec (run batches) s)) by (destruct H; assumption).
  assert (K : steps (R := keeps kolay_inv) (run batches)).
  { apply steps_run.
    - intro evs. apply steps_handle_events, handle_event_keeps_kolay.
    - apply update_keeps_kolay.
    - apply (steps_of_preserves mode_bombs); [apply mode_bombs_keeps |].
      frame. }
  apply (K s). split; assumption.
Qed.

Lemma kolay_never_spawns_bombs_witness :
  game_mode (play_state "Kolay") = "Kolay"%string /\ bombs (play_state "Kolay") = [] /\
  bombs (exec (run (repeat [] 400)) (play_state "Kolay")) = [].
Proof.
  assert (H1 : game_mode (play_state "Kolay") = "Kolay"%string) by reflexivity.
  assert (H2 : bombs (play_state "Kolay") = []) by reflexivity.
  split; [exact H1 | split; [exact H2 | exact (kolay_never_spawns_bombs _ _ H1 H2)]].
Defined.

(** ** Spawn intervals never fall below the floors of the mode *)

(** The local [min_interval] and [min_bomb_interval] of [update]. *)
Definition min_spawn_interval (mode : string) : Q := if String.eqb mode "Zor" then 20 else 30.
Definition min_bomb_spawn_interval (mode : string) : Q :=
  if String.eqb mode "Zor" then 100 else 180.

Definition spawn_floor_inv (s : FruitNinja) : Prop :=
  (min_spawn_interval (game_mode s) <= spawn_interval s /\
   min_bomb_spawn_interval (game_mode s) <= bomb_spawn_interval s)%Q.

Lemma reset_game_floor (s : FruitNinja) : spawn_floor_inv (reset_game s).
Proof.
  unfold spawn_floor_inv.
  change (game_mode (reset_game s)) with (game_mode s).
  change (spawn_interval (reset_game s)) with (d_spawn_interval (difficulty_of (game_mode s))).
  change (bomb_spawn_interval (reset_game s))
    with (d_bomb_spawn_interval (difficulty_of (game_mode s))).
  unfold difficulty_of, min_spawn_interval, min_bomb_spawn_interval.
  destruct (String.eqb (game_mode s) "Kolay"), (String.eqb (game_mode s) "Zor");
  split; vm_compute; discriminate.
Qed.

Ltac floor_close :=
  unfold keeps; intro;
  repeat match goal with |- context [if ?c then _ else ?t] => is_var t; destruct c end;
  match goal with
  | HP : spawn_floor_inv _ |- _ =>
      first [ exact HP
            | apply reset_game_floor
            | split; [apply Q.le_max_l | exact (proj2 HP)]
            | split; [exact (proj1 HP) | apply Q.le_max_l] ]
  end.

Lemma handle_event_keeps_floor (e : Event) : steps (R := keeps spawn_floor_inv) (handle_event e).
Proof.
  destruct e; unfold handle_event;
  repeat (unfold motion_slices, start_bomb_flash, slice_fruit, slice_fruit_effects,
            slice_fruit_score, uniform, randint, choice, Particle_new, SlicedFruit_new,
            push_particle; steps_step);
  floor_close.
Qed.

Lemma update_keeps_floor : steps (R := keeps spawn_floor_inv) update.
Proof.
  unfold update;
  repeat (unfold tick_fruit_spawner, tick_bomb_spawner, spawn_fruit, spawn_bomb, lose_life,
            get_random_fruit_type, Fruit_new, Bomb_new, uniform, randint, choice; steps_step);
  floor_close.
Qed.

(** Over any run of the main loop, the fruit spawn interval stays at or
    above [min_interval] (20 in mode Zor, 30 otherwise) and the bomb spawn
    interval at or above [min_bomb_interval] (100 in mode Zor, 180
    otherwise), once they are: the spawners clamp the accelerated interval
    with [max], and every mode's starting intervals are above the floors. *)
Theorem spawn_interval_floors (batches : list (list Event)) (s : FruitNinja) :
  spawn_floor_inv s -> spawn_floor_inv (exec (run batches) s).
Proof.
  revert s. apply (steps_run (R := keeps spawn_floor_inv)).
  - intro evs. apply steps_handle_events, handle_event_keeps_floor.
  - apply update_keeps_floor.
  - unfold draw_effects, draw_ui_effects; repeat steps_step; floor_close.
Qed.

Lemma spawn_interval_floors_witness :
  spawn_floor_inv (play_state "Zor") /\
  spawn_floor_inv (exec (run (repeat [] 200)) (play_state "Zor")).
Proof.
  assert (H : spawn_floor_inv (play_state "Zor")) by (split; vm_compute; discriminate).
  split; [exact H | exact (spawn_interval_floors _ _ H)].
Defined.

(** ** The bomb flash *)

Lemma Qleb_42 (d : Q) (z : Z) : (d == 42)%Q -> Qleb d (inject_Z z) = (42 <=? z).
Proof.
  intro Hd. unfold Qleb. apply eq_true_iff_eq.
  rewrite Qle_bool_iff, Z.leb_le, Hd, Zle_Qle. reflexivity.
Qed.

Definition frozen_view (s : FruitNinja) :=
  (fruits s, bombs s, sliced_fruits s, particles s, lives s, score s, game_over s,
   spawn_timer s, show_title_screen s, bomb_flash_duration s).

Lemma update_flash_frozen : preserves frozen_view update_flash.
Proof. unfold update_flash. frame. Qed.

Lemma update_flash_exec (s : FruitNinja) :
  bomb_flash_timer (exec update_flash s) = bomb_flash_timer s + 1 /\
  bomb_flash_active (exec update_flash s) =
  if Qleb (bomb_flash_duration s) (inject_Z (bomb_flash_timer s + 1)) then false
  else bomb_flash_active s.
Proof.
  unfold exec, update_flash, bind, modify. cbn.
  destruct (Qleb _ _); split; reflexivity.
Qed.

Lemma flash_ticks (s : FruitNinja) (k : nat) :
  show_title_screen s = false -> game_over s = true -> bomb_flash_active s = true ->
  bomb_flash_timer s = 0 -> (bomb_flash_duration s == 42)%Q -> (k <= 42)%nat ->
  let s' := Nat.iter k (exec update) s in
  bomb_flash_active s' = (k <? 42)%nat /\ bomb_flash_timer s' = Z.of_nat k /\
  frozen_view s' = frozen_view s.
Proof.
  intros Ht Hg Ha Hz Hd. cbv zeta. induction k as [| k IH]; intro Hk.
  - repeat split; [exact Ha | exact Hz].
  - destruct IH as (Ha' & Hz' & Hv); [lia |].
    rewrite Nat.iter_succ. set (sk := Nat.iter k (exec update) s) in *.
    assert (Ek : frozen_view sk = frozen_view s) by exact Hv.
    unfold frozen_view in Hv. injection Hv as _ _ _ _ _ _ Eg _ Et Ed.
    rewrite update_split, Et, Ht, Eg, Hg, Ha'.
    replace (k <? 42)%nat with true by (symmetry; apply Nat.ltb_lt; lia). cbn [andb negb].
    destruct (update_flash_exec sk) as [Ez Ea]. rewrite Ea, Ez, Hz', Ha', Qleb_42 by
      (rewrite Ed; exact Hd).
    split; [| split].
    + destruct (Z.leb_spec 42 (Z.of_nat k + 1)), (Nat.ltb_spec k 42), (Nat.ltb_spec (S k) 42);
      try reflexivity; lia.
    + lia.
    + rewrite <- Ek. apply update_flash_frozen.
Qed.

(** A bomb slice freezes the game for exactly 42 ticks ([FPS * 0.7]): the
    flash stays active for the first 41 calls of [update] after
    [start_bomb_flash] and ends on the 42nd; meanwhile the field stays
    empty, no fruit is spawned, and the halves, particles, lives and score
    stay as they were. *)
Theorem bomb_flash_lasts (b : Bomb) (s : FruitNinja) (k : nat) :
  show_title_screen s = false -> (bomb_flash_duration s == 42)%Q -> (k <= 42)%nat ->
  let s' := Nat.iter k (exec update) (exec (start_bomb_flash b) s) in
  bomb_flash_active s' = (k <? 42)%nat /\ bomb_flash_timer s' = Z.of_nat k /\
  game_over s' = true /\ fruits s' = [] /\ bombs s' = [] /\
  sliced_fruits s' = sliced_fruits s /\ particles s' = particles s /\
  lives s' = lives s /\ score s' = score s /\ spawn_timer s' = spawn_timer s.
Proof.
  intros Ht Hd Hk. cbv zeta.
  destruct (flash_ticks (exec (start_bomb_flash b) s) k Ht eq_refl eq_refl eq_refl Hd Hk)
    as (Ha & Hz & Hv).
  unfold frozen_view in Hv. injection Hv as Ef Eb Esl Ep El Es Eg Est _ _.
  rewrite Ha, Hz, Ef, Eb, Esl, Ep, El, Es, Eg, Est. repeat split.
Qed.

Lemma bomb_flash_lasts_witness :
  show_title_screen (play_state "Orta") = false /\
  (bomb_flash_duration (play_state "Orta") == 42)%Q /\ (42 <= 42)%nat /\
  (let s' := Nat.iter 42 (exec update) (exec (start_bomb_flash (test_bomb 50 0 0)) (play_state "Orta")) in
   bomb_flash_active s' = (42 <? 42)%nat /\ bomb_flash_timer s' = Z.of_nat 42 /\
   game_over s' = true /\ fruits s' = [] /\ bombs s' = [] /\
   sliced_fruits s' = sliced_fruits (play_state "Orta") /\
   particles s' = particles (play_state "Orta") /\
   lives s' = lives (play_state "Orta") /\ score s' = score (play_state "Orta") /\
   spawn_timer s' = spawn_timer (play_state "Orta")).
Proof.
  assert (H1 : show_title_screen (play_state "Orta") = false) by reflexivity.
  assert (H2 : (bomb_flash_duration (play_state "Orta") == 42)%Q) by (vm_compute; reflexivity).
  assert (H3 : (42 <= 42)%nat) by lia.
  split; [exact H1 | split; [exact H2 | split; [exact H3 |]]].
  exact (bomb_flash_lasts (test_bomb 50 0 0) _ 42 H1 H2 H3).
Defined.

(** ** The game-over screen closes the window *)

Lemma Qltb_90 (z : Z) : Qltb (inject_Z FPS * (3 # 2)) (inject_Z z) = (90 <? z).
Proof.
  unfold Qltb, Qle_bool. cbn [Qnum Qden inject_Z Qmult FPS].
  destruct (Z.leb_spec (z * 2) (60 * 3 * 1)), (Z.ltb_spec 90 z); cbn; lia.
Qed.

Definition over_view (s : FruitNinja) :=
  (show_title_screen s, bomb_flash_active s, running s, game_over_frames s).

Lemma draw_effects_over (t : FruitNinja) :
  show_title_screen t = false -> game_over t = true -> bomb_flash_active t = false ->
  exec draw_effects t =
  let u := exec draw_ui_effects t in
  if 90 <? game_over_frames t + 1
  then set_running false (set_game_over_frames (game_over_frames t + 1) u)
  else set_game_over_frames (game_over_frames t + 1) u.
Proof.
  intros Ht Hg Ha. unfold exec, draw_effects, draw_ui_effects, bind, gets, when, modify, ret.
  cbv beta iota zeta. rewrite Ht, Hg, Ha. cbv delta [andb] beta iota.
  destruct (0 <? life_loss_timer t); rewrite <- Qltb_90; reflexivity.
Qed.

Lemma game_over_tick (s : FruitNinja) :
  show_title_screen s = false -> game_over s = true -> bomb_flash_active s = false ->
  let s1 := exec (run_step []) s in
  show_title_screen s1 = false /\ game_over s1 = true /\ bomb_flash_active s1 = false /\
  game_over_frames s1 = game_over_frames s + 1 /\
  running s1 = running s && (game_over_frames s + 1 <=? 90).
Proof.
  intros Ht Hg Ha. cbv zeta. unfold run_step. rewrite !exec_seq.
  change (exec (handle_events []) s) with s.
  assert (Hu : over_view (exec update s) = over_view s /\ game_over (exec update s) = true).
  { rewrite update_split, Ht, Hg, Ha. cbn [andb]. rewrite !exec_seq.
    pose proof (spawners_preserve s) as Hv. rewrite exec_seq in Hv.
    unfold spawner_view in Hv. injection Hv as _ Eg _ _ _.
    destruct (update_entities_exec (exec tick_bomb_spawner (exec tick_fruit_spawner s)))
      as (_ & _ & _ & _ & _ & _ & Hg').
    split.
    - assert (H : preserves over_view (tick_fruit_spawner ;; tick_bomb_spawner ;; update_entities))
        by (unfold update_entities; frame).
      specialize (H s). rewrite <- !exec_seq. exact H.
    - rewrite Hg', Eg, Hg. reflexivity. }
  destruct Hu as [Hv Hg'].
  set (s2 := exec update s) in *.
  unfold over_view in Hv. injection Hv as Et Ea Er Ef.
  rewrite draw_effects_over by (rewrite ?Et, ?Ea; assumption).
  unfold exec, draw_ui_effects, modify. cbv beta iota zeta.
  destruct (0 <? life_loss_timer s2);
  destruct (Z.ltb_spec 90 (game_over_frames s2 + 1)), (Z.leb_spec (game_over_frames s + 1) 90);
  cbn; rewrite ?Et, ?Hg', ?Ea, ?Er, ?Ef, ?Ht, ?Ha; repeat split; try reflexivity; try lia;
  rewrite ?andb_false_r, ?andb_true_r; reflexivity.
Qed.

(** Once the game is over by lost lives (no bomb flash running), the main
    loop stops by itself: with [_game_over_frames] at [f] and no input, the
    window is still open after [k] ticks iff [k = 0] or [f + k <= 90], so
    from [f = 0] it closes on the 91st tick, about a second and a half
    after the game ended. *)
Theorem game_over_screen_closes (k : nat) (s : FruitNinja) :
  show_title_screen s = false -> game_over s = true -> bomb_flash_active s = false ->
  running (exec (run (repeat [] k)) s) =
  running s && ((k =? 0)%nat || (game_over_frames s + Z.of_nat k <=? 90)).
Proof.
  revert s. induction k as [| k IH]; intros s Ht Hg Ha.
  - cbn. rewrite andb_true_r. reflexivity.
  - cbn [repeat run]. rewrite exec_gets.
    destruct (running s) eqn:Hr; [| change (exec (ret tt) s) with s; rewrite Hr; reflexivity].
    rewrite exec_seq.
    destruct (game_over_tick s Ht Hg Ha) as (Ht1 & Hg1 & Ha1 & Hf1 & Hr1).
    rewrite (IH _ Ht1 Hg1 Ha1), Hr1, Hf1, Hr. cbn [andb Nat.eqb orb].
    destruct k as [| k'].
    + cbn. rewrite andb_true_r. reflexivity.
    + cbn [Nat.eqb orb].
      destruct (Z.leb_spec (game_over_frames s + 1) 90),
               (Z.leb_spec (game_over_frames s + 1 + Z.of_nat (S k')) 90),
               (Z.leb_spec (game_over_frames s + Z.of_nat (S (S k'))) 90);
      cbn; try reflexivity; lia.
Qed.

Definition lost_game_state : FruitNinja := set_game_over true (play_state "Orta").

Lemma game_over_screen_closes_witness :
  show_title_screen lost_game_state = false /\ game_over lost_game_state = true /\
  bomb_flash_active lost_game_state = false /\
  running (exec (run (repeat [] 91)) lost_game_state) =
  running lost_game_state && ((91 =? 0)%nat || (game_over_frames lost_game_state + Z.of_nat 91 <=? 90)).
Proof.
  assert (H1 : show_title_screen lost_game_state = false) by reflexivity.
  assert (H2 : game_over lost_game_state = true) by reflexivity.
  assert (H3 : bomb_flash_active lost_game_state = false) by reflexivity.
  split; [exact H1 | split; [exact H2 | split; [exact H3 |]]].
  exact (game_over_screen_closes 91 _ H1 H2 H3).
Defined.

(** ** What the spawners append *)

Lemma exec_bind_gen {A B : Type} (m : M A) (k : A -> M B) (s : FruitNinja) :
  exec (bind m k) s = exec (k (fst (m s))) (exec m s).
Proof. unfold exec, bind. destruct (m s). reflexivity. Qed.

(** Every draw left in the stream is in [0, 1]. *)
Definition draws_ok (s : FruitNinja) : Prop := Forall (fun u => 0 <= u <= 1)%Q (rnd s).

Lemma rand_unit_ok (s : FruitNinja) :
  draws_ok s -> (0 <= fst (rand_unit s) <= 1)%Q /\ draws_ok (exec rand_unit s).
Proof.
  unfold draws_ok, exec, rand_unit. intro H. destruct (rnd s) as [| u us] eqn:E.
  - cbn. rewrite E. split; [split; discriminate | constructor].
  - inversion H as [| ? ? Hu Hus]. cbn. split; assumption.
Qed.

Lemma randint_range (a b : Z) (s : FruitNinja) : a <= b -> a <= fst (randint a b s) <= b.
Proof. intro H. unfold randint, bind, rand_unit. destruct (rnd s); cbn; lia. Qed.

Lemma randint_ok (a b : Z) (s : FruitNinja) : draws_ok s -> draws_ok (exec (randint a b) s).
Proof.
  intro H. unfold randint. rewrite exec_bind_gen. apply (rand_unit_ok s H).
Qed.

Lemma uniform_range (a b : Q) (s : FruitNinja) :
  (a <= b)%Q -> draws_ok s -> (a <= fst (uniform a b s) <= b)%Q /\ draws_ok (exec (uniform a b) s).
Proof.
  intros Hab H. destruct (rand_unit_ok s H) as [[H0 H1] Hok].
  unfold uniform, bind. unfold exec in Hok |- *.
  destruct (rand_unit s) as [u s'] eqn:E. cbn in H0, H1, Hok |- *.
  split; [| exact Hok].
  assert (Hd : (0 <= b - a)%Q) by (apply Qle_minus_iff in Hab; exact Hab).
  split.
  - rewrite <- (Qplus_0_r a) at 1. apply Qplus_le_compat; [apply Qle_refl |].
    apply Qmult_le_0_compat; assumption.
  - setoid_replace b with (a + (b - a) * 1)%Q at 2 by ring.
    apply Qplus_le_compat; [apply Qle_refl |].
    rewrite !(Qmult_comm (b - a)). apply Qmult_le_compat_r; assumption.
Qed.

Lemma Fruit_new_pos (x y : Q) (t : string) (r : Z) (hc : bool) :
  returns (fun f => fruit_x f = x /\ fruit_y f = y) (Fruit_new x y t r hc).
Proof. unfold Fruit_new. do 3 (apply returns_bind; intro). intro s. split; reflexivity. Qed.

Lemma Bomb_new_pos (x y : Q) :
  returns (fun b => bomb_x b = x /\ bomb_y b = y) (Bomb_new x y).
Proof. unfold Bomb_new. do 3 (apply returns_bind; intro). intro s. split; reflexivity. Qed.

(** [spawn_fruit] appends exactly one fruit to [self.fruits]: it starts
    30 pixels below the game area ([y = 570]) at an [x] between 80 and 720,
    and, when the random draws are in [0, 1], with a horizontal speed within
    [fruit_horizontal_velocity] and a vertical speed between
    [fruit_velocity_min] and [fruit_velocity_max]. *)
Theorem spawn_fruit_appends (s : FruitNinja) :
  draws_ok s -> (fruit_velocity_min s <= fruit_velocity_max s)%Q ->
  (0 <= fruit_horizontal_velocity s)%Q ->
  exists f, fruits (exec spawn_fruit s) = fruits s ++ [f] /\
    (80 <= fruit_x f <= 720)%Q /\ fruit_y f = 570%Q /\
    (- fruit_horizontal_velocity s <= fruit_vx f <= fruit_horizontal_velocity s)%Q /\
    (fruit_velocity_min s <= fruit_vy f <= fruit_velocity_max s)%Q.
Proof.
  intros Hok Hv Hh. unfold spawn_fruit.
  rewrite exec_bind_gen. cbv beta zeta.
  set (x := fst (randint 80 (SCREEN_WIDTH - 80) s)).
  assert (Hx : 80 <= x <= 720) by (apply randint_range; discriminate).
  set (s1 := exec (randint 80 (SCREEN_WIDTH - 80)) s).
  assert (Hok1 : draws_ok s1) by (apply randint_ok; exact Hok).
  assert (Hs1 : fruits s1 = fruits s /\ fruit_horizontal_velocity s1 = fruit_horizontal_velocity s /\
                fruit_velocity_min s1 = fruit_velocity_min s /\
                fruit_velocity_max s1 = fruit_velocity_max s).
  { assert (P : preserves (fun t => (fruits t, fruit_horizontal_velocity t,
                                      fruit_velocity_min t, fruit_velocity_max t))
                          (randint 80 (SCREEN_WIDTH - 80))) by frame.
    specialize (P s). injection P as E1 E2 E3 E4. repeat split; assumption. }
  destruct Hs1 as (Ef1 & Eh1 & Emin1 & Emax1).
  rewrite exec_gets, exec_bind_gen. cbv beta.
  rewrite Eh1.
  destruct (uniform_range (- fruit_horizontal_velocity s) (fruit_horizontal_velocity s) s1)
    as [Hvx Hok2].
  { apply Qle_trans with 0%Q; [| exact Hh].
    apply (Qopp_le_compat 0), Hh. }
  { exact Hok1. }
  set (vx := fst (uniform (- fruit_horizontal_velocity s) (fruit_horizontal_velocity s) s1)) in *.
  set (s2 := exec (uniform (- fruit_horizontal_velocity s) (fruit_horizontal_velocity s)) s1) in *.
  assert (Hs2 : fruits s2 = fruits s /\ fruit_velocity_min s2 = fruit_velocity_min s /\
                fruit_velocity_max s2 = fruit_velocity_max s).
  { assert (P : preserves (fun t => (fruits t, fruit_velocity_min t, fruit_velocity_max t))
                          (uniform (- fruit_horizontal_velocity s) (fruit_horizontal_velocity s)))
      by frame.
    specialize (P s1). injection P as E1 E2 E3.
    unfold s2, exec. rewrite E1, E2, E3. repeat split; assumption. }
  destruct Hs2 as (Ef2 & Emin2 & Emax2).
  rewrite !exec_gets, exec_bind_gen. cbv beta.
  rewrite Emin2, Emax2.
  destruct (uniform_range (fruit_velocity_min s) (fruit_velocity_max s) s2 Hv Hok2) as [Hvy _].
  set (vy := fst (uniform (fruit_velocity_min s) (fruit_velocity_max s) s2)) in *.
  set (s3 := exec (uniform (fruit_velocity_min s) (fruit_velocity_max s)) s2).
  assert (Ef3 : fruits s3 = fruits s).
  { assert (P : preserves fruits (uniform (fruit_velocity_min s) (fruit_velocity_max s))) by frame.
    unfold s3, exec. rewrite P. exact Ef2. }
  rewrite exec_bind_gen. cbv beta.
  set (t := fst (get_random_fruit_type s3)).
  set (s4 := exec get_random_fruit_type s3).
  assert (Ef4 : fruits s4 = fruits s).
  { assert (P : preserves fruits get_random_fruit_type) by frame.
    unfold s4, exec. rewrite P. exact Ef3. }
  rewrite exec_gets, exec_bind_gen. cbv beta.
  set (look := match lookup_asset t (fruit_images s4) with
               | Some a => r <- choice 30 (asset_whole_radii a) ;; ret (r, asset_has_cut a)
               | None => ret (30, false)
               end).
  assert (Ef5 : fruits (exec look s4) = fruits s).
  { assert (P : preserves fruits look) by (unfold look; frame).
    unfold exec. rewrite P. exact Ef4. }
  destruct (fst (look s4)) as [radius hc].
  set (s5 := exec look s4) in *.
  rewrite exec_bind_gen. cbv beta.
  destruct (Fruit_new_pos (inject_Z x) (inject_Z (GAME_AREA_Y + GAME_AREA_HEIGHT + 30)) t radius hc s5)
    as [Ex Ey].
  set (f0 := fst (Fruit_new _ _ t radius hc s5)) in *.
  assert (Ef6 : fruits (exec (Fruit_new (inject_Z x) (inject_Z (GAME_AREA_Y + GAME_AREA_HEIGHT + 30))
                                      t radius hc) s5) = fruits s).
  { assert (P : preserves fruits (Fruit_new (inject_Z x)
                  (inject_Z (GAME_AREA_Y + GAME_AREA_HEIGHT + 30)) t radius hc)) by frame.
    unfold exec. rewrite P. exact Ef5. }
  rewrite exec_modify. cbn [fruits set_fruits]. rewrite Ef6.
  eexists. split; [reflexivity |]. cbn [fruit_x fruit_y fruit_vx fruit_vy].
  rewrite Ex, Ey. split; [| split; [reflexivity | split; assumption]].
  split; [change 80%Q with (inject_Z 80) | change 720%Q with (inject_Z 720)];
    rewrite <- Zle_Qle; lia.
Qed.

Definition draw_state (mode : string) (rs : list Q) : FruitNinja :=
  set_show_title_screen false (init_game mode [] 0 rs).

Lemma spawn_fruit_appends_witness :
  draws_ok (draw_state "Orta" [1#2; 1#4; 3#4]) /\
  (fruit_velocity_min (draw_state "Orta" [1#2; 1#4; 3#4]) <=
   fruit_velocity_max (draw_state "Orta" [1#2; 1#4; 3#4]))%Q /\
  (0 <= fruit_horizontal_velocity (draw_state "Orta" [1#2; 1#4; 3#4]))%Q /\
  exists f, fruits (exec spawn_fruit (draw_state "Orta" [1#2; 1#4; 3#4])) =
    fruits (draw_state "Orta" [1#2; 1#4; 3#4]) ++ [f] /\
    (80 <= fruit_x f <= 720)%Q /\ fruit_y f = 570%Q /\
    (- fruit_horizontal_velocity (draw_state "Orta" [1#2; 1#4; 3#4]) <= fruit_vx f <=
       fruit_horizontal_velocity (draw_state "Orta" [1#2; 1#4; 3#4]))%Q /\
    (fruit_velocity_min (draw_state "Orta" [1#2; 1#4; 3#4]) <= fruit_vy f <=
       fruit_velocity_max (draw_state "Orta" [1#2; 1#4; 3#4]))%Q.
Proof.
  assert (H1 : draws_ok (draw_state "Orta" [1#2; 1#4; 3#4]))
    by (unfold draws_ok; vm_compute; repeat constructor; discriminate).
  assert (H2 : (fruit_velocity_min (draw_state "Orta" [1#2; 1#4; 3#4]) <=
                fruit_velocity_max (draw_state "Orta" [1#2; 1#4; 3#4]))%Q)
    by (vm_compute; discriminate).
  assert (H3 : (0 <= fruit_horizontal_velocity (draw_state "Orta" [1#2; 1#4; 3#4]))%Q)
    by (vm_compute; discriminate).
  split; [exact H1 | split; [exact H2 | split; [exact H3 |]]].
  exact (spawn_fruit_appends _ H1 H2 H3).
Defined.

(** [spawn_bomb] appends exactly one bomb to [self.bombs]: it starts 30
    pixels below the game area ([y = 570]) at an [x] between 80 and 720,
    and, when the random draws are in [0, 1], with a horizontal speed in
    [-4, 4] and a vertical speed between [bomb_velocity_min] and
    [bomb_velocity_max]. *)
Theorem spawn_bomb_appends (s : FruitNinja) :
  draws_ok s -> (bomb_velocity_min s <= bomb_velocity_max s)%Q ->
  exists b, bombs (exec spawn_bomb s) = bombs s ++ [b] /\
    (80 <= bomb_x b <= 720)%Q /\ bomb_y b = 570%Q /\
    (-4 <= bomb_vx b <= 4)%Q /\
    (bomb_velocity_min s <= bomb_vy b <= bomb_velocity_max s)%Q.
Proof.
  intros Hok Hv. unfold spawn_bomb.
  rewrite exec_bind_gen. cbv beta zeta.
  set (x := fst (randint 80 (SCREEN_WIDTH - 80) s)).
  assert (Hx : 80 <= x <= 720) by (apply randint_range; discriminate).
  set (s1 := exec (randint 80 (SCREEN_WIDTH - 80)) s).
  assert (Hok1 : draws_ok s1) by (apply randint_ok; exact Hok).
  assert (Hs1 : bombs s1 = bombs s /\ bomb_velocity_min s1 = bomb_velocity_min s /\
                bomb_velocity_max s1 = bomb_velocity_max s).
  { assert (P : preserves (fun t => (bombs t, bomb_velocity_min t, bomb_velocity_max t))
                          (randint 80 (SCREEN_WIDTH - 80))) by frame.
    specialize (P s). injection P as E1 E2 E3. repeat split; assumption. }
  destruct Hs1 as (Eb1 & Emin1 & Emax1).
  rewrite exec_bind_gen. cbv beta.
  destruct (uniform_range (-4) 4 s1) as [Hvx Hok2]; [discriminate | exact Hok1 |].
  set (vx := fst (uniform (-4) 4 s1)) in *.
  set (s2 := exec (uniform (-4) 4) s1) in *.
  assert (Hs2 : bombs s2 = bombs s /\ bomb_velocity_min s2 = bomb_velocity_min s /\
                bomb_velocity_max s2 = bomb_velocity_max s).
  { assert (P : preserves (fun t => (bombs t, bomb_velocity_min t, bomb_velocity_max t))
                          (uniform (-4) 4)) by frame.
    specialize (P s1). injection P as E1 E2 E3.
    unfold s2, exec. rewrite E1, E2, E3. repeat split; assumption. }
  destruct Hs2 as (Eb2 & Emin2 & Emax2).
  rewrite !exec_gets, exec_bind_gen. cbv beta.
  rewrite Emin2, Emax2.
  destruct (uniform_range (bomb_velocity_min s) (bomb_velocity_max s) s2 Hv Hok2) as [Hvy _].
  set (vy := fst (uniform (bomb_velocity_min s) (bomb_velocity_max s) s2)) in *.
  set (s3 := exec (uniform (bomb_velocity_min s) (bomb_velocity_max s)) s2).
  assert (Eb3 : bombs s3 = bombs s).
  { assert (P : preserves bombs (uniform (bomb_velocity_min s) (bomb_velocity_max s))) by frame.
    unfold s3, exec. rewrite P. exact Eb2. }
  rewrite exec_bind_gen. cbv beta.
  destruct (Bomb_new_pos (inject_Z x) (inject_Z (GAME_AREA_Y + GAME_AREA_HEIGHT + 30)) s3)
    as [Ex Ey].
  assert (Eb4 : bombs (exec (Bomb_new (inject_Z x)
                        (inject_Z (GAME_AREA_Y + GAME_AREA_HEIGHT + 30))) s3) = bombs s).
  { assert (P : preserves bombs (Bomb_new (inject_Z x)
                  (inject_Z (GAME_AREA_Y + GAME_AREA_HEIGHT + 30)))) by frame.
    unfold exec. rewrite P. exact Eb3. }
  rewrite exec_modify. cbn [bombs set_bombs]. rewrite Eb4.
  eexists. split; [reflexivity |]. cbn [bomb_x bomb_y bomb_vx bomb_vy].
  rewrite Ex, Ey. split; [| split; [reflexivity | split; assumption]].
  split; [change 80%Q with (inject_Z 80) | change 720%Q with (inject_Z 720)];
    rewrite <- Zle_Qle; lia.
Qed.

Lemma spawn_bomb_appends_witness :
  draws_ok (draw_state "Zor" [1#3; 0%Q; 1%Q]) /\
  (bomb_velocity_min (draw_state "Zor" [1#3; 0%Q; 1%Q]) <=
   bomb_velocity_max (draw_state "Zor" [1#3; 0%Q; 1%Q]))%Q /\
  exists b, bombs (exec spawn_bomb (draw_state "Zor" [1#3; 0%Q; 1%Q])) =
    bombs (draw_state "Zor" [1#3; 0%Q; 1%Q]) ++ [b] /\
    (80 <= bomb_x b <= 720)%Q /\ bomb_y b = 570%Q /\ (-4 <= bomb_vx b <= 4)%Q /\
    (bomb_velocity_min (draw_state "Zor" [1#3; 0%Q; 1%Q]) <= bomb_vy b <=
       bomb_velocity_max (draw_state "Zor" [1#3; 0%Q; 1%Q]))%Q.
Proof.
  assert (H1 : draws_ok (draw_state "Zor" [1#3; 0%Q; 1%Q]))
    by (unfold draws_ok; vm_compute; repeat constructor; discriminate).
  assert (H2 : (bomb_velocity_min (draw_state "Zor" [1#3; 0%Q; 1%Q]) <=
                bomb_velocity_max (draw_state "Zor" [1#3; 0%Q; 1%Q]))%Q)
    by (vm_compute; discriminate).
  split; [exact H1 | split; [exact H2 |]].
  exact (spawn_bomb_appends _ H1 H2).
Defined.

(** ** The collision tests of a pointer sample *)



